(** * eslint-plugin-better-max-params: the rule and its AST utilities

    A shallow embedding of [lib/rules/utils/ast-utils.js] and of
    [lib/rules/better-max-params.js].

    JavaScript objects that the code allocates or could share (position
    objects [{line, column}], the [tokens] array of the labeler) live in an
    explicit heap; AST nodes and lexical tokens are records whose [loc] fields
    hold references into that heap.  Every assignment of the two modules
    writes a local variable, the [tokens] array or an object made by
    [Object.assign({}, ...)]; no statement writes a field of a node or of a
    token, which is why nodes and tokens are plain values here.  A thrown
    [TypeError] is an abrupt completion of the monad.

    The file has four parts: the data and the state monad; the two modules,
    function by function; the concrete programs used as witnesses; the
    lemmas and the theorems. *)

From Stdlib Require Import String Ascii Arith Lia DecimalString.
From stdpp Require Import base option list strings.

Local Open Scope string_scope.
Local Open Scope list_scope.

(** ** Values of literals *)

(** The value a [Literal] node carries.  Numbers are the non-negative
    integers a numeric literal can denote exactly; [JSRegExp] and [JSBigInt]
    are the values of regex and bigint literals in an environment that can
    represent them. *)
Inductive JSValue : Type :=
| JSNull
| JSUndefined
| JSBoolean (b : bool)
| JSNumber (n : nat)
| JSString (s : string)
| JSRegExp (source flags : string)
| JSBigInt (n : nat).

Definition decimal (n : nat) : string := NilEmpty.string_of_uint (Nat.to_uint n).

(** JavaScript's [String(value)].  A number is printed in full decimal
    digits, as JavaScript prints the integers below 10^21. *)
Definition String_ (v : JSValue) : string :=
  match v with
  | JSNull => "null"
  | JSUndefined => "undefined"
  | JSBoolean true => "true"
  | JSBoolean false => "false"
  | JSNumber n => decimal n
  | JSString s => s
  | JSRegExp source flags => "/" +:+ source +:+ "/" +:+ flags
  | JSBigInt n => decimal n
  end.

(** [value === null] *)
Definition isNull (v : JSValue) : bool :=
  match v with JSNull => true | _ => false end.

(** ** The heap *)

Abbreviation ref := nat.

Inductive HeapObject : Type :=
| PositionObject (line column : nat)
| ArrayObject (items : list string).

Abbreviation Heap := (list HeapObject).

(** [loc] of a node or a token: references to its two position objects. *)
Record SourceLocation : Type := mkLoc { start : ref; end_ : ref }.

(** ** Tokens and nodes *)

Module Token.
Record t : Type := mk {
  type : string;
  value : string;
  range : nat * nat;
  loc : SourceLocation
}.
End Token.

Record RegExpInfo : Type := mkRegex { pattern : string; flags : string }.

(** [quasi.value] of a template element; [cooked] is [null] for an invalid
    escape sequence. *)
Record TemplateElement : Type := mkQuasi { cooked : option string; raw : string }.

Module Node.
(** An ESTree node, duck-typed as the code reads it: a [type] tag and the
    fields of every node kind the code looks at.  A field a node kind does
    not have reads as [undefined]: [None], [false] or the empty list.
    [parent] is the node above, with its own fields and ancestors. *)
#[local] Unset Elimination Schemes.
Inductive t : Type := mk {
  type : string;
  range : nat * nat;
  loc : SourceLocation;
  parent : option t;
  (* function-like nodes *)
  id_ : option t;
  params : list t;
  body : option t;
  async : bool;
  generator : bool;
  (* Property, MethodDefinition, PropertyDefinition *)
  key : option t;
  computed : bool;
  static : bool;
  kind : option string;
  (* MemberExpression, ChainExpression *)
  property : option t;
  expression : option t;
  (* Identifier, PrivateIdentifier *)
  name : string;
  (* Literal *)
  value : JSValue;
  regex : option RegExpInfo;
  bigint : option string;
  (* TemplateLiteral *)
  quasis : list TemplateElement;
  expressions : list t
}.
End Node.

Abbreviation ASTNode := Node.t.
Abbreviation Token := Token.t.

(** ** Completions and the state monad *)

Inductive JSError : Type := TypeError.

Inductive completion (A : Type) : Type :=
| Normal (a : A)
| Throw (e : JSError).
Arguments Normal {A} a.
Arguments Throw {A} e.

(** The [data] of a violation record.  [max] is the variable the rule
    compared against: a number, or [undefined]. *)
Module Data.
Record t : Type := mk {
  name : string;
  count : nat;
  max : option nat
}.
End Data.

(** The descriptor handed to [context.report]. *)
Module Report.
Record t : Type := mk {
  loc : SourceLocation;
  node : ASTNode;
  messageId : string;
  data : Data.t
}.
End Report.

Abbreviation Report := Report.t.

(** The mutable world: the heap and what the host has been told so far. *)
Record State : Type := mkState { heap : Heap; reports : list Report }.

Definition M (A : Type) : Type := State -> completion A * State.

Definition ret {A} (a : A) : M A := fun s => (Normal a, s).

Definition bind {A B} (m : M A) (f : A -> M B) : M B :=
  fun s => match m s with
           | (Normal a, s') => f a s'
           | (Throw e, s') => (Throw e, s')
           end.

Definition throw {A} (e : JSError) : M A := fun s => (Throw e, s).

Notation "'let!' x ':=' m 'in' k" := (bind m (fun x => k))
  (at level 10, x name, m at level 100, k at level 200, only parsing).
Notation "m '>>' k" := (bind m (fun _ => k))
  (at level 100, k at level 200, right associativity, only parsing).

(** Reading a property of [o]: a [TypeError] when [o] is [null] or
    [undefined]. *)
Definition deref {A} (o : option A) : M A :=
  match o with
  | Some a => ret a
  | None => throw TypeError
  end.

(** [if (c) { m }] *)
Definition when (c : bool) (m : M unit) : M unit :=
  if c then m else ret tt.

Definition alloc (o : HeapObject) : M ref :=
  fun s => (Normal (List.length (heap s)),
            {| heap := heap s ++ [o]; reports := reports s |}).

(** [[]]: a new array. *)
Definition newArray : M ref := alloc (ArrayObject []).

(** [array.push(x)] *)
Definition push (array : ref) (x : string) : M unit :=
  fun s => match heap s !! array with
           | Some (ArrayObject items) =>
               (Normal tt,
                {| heap := <[array := ArrayObject (items ++ [x])]> (heap s);
                   reports := reports s |})
           | _ => (Throw TypeError, s)
           end.

(** [array.join(sep)] *)
Definition join (array : ref) (sep : string) : M string :=
  fun s => match heap s !! array with
           | Some (ArrayObject items) => (Normal (String.concat sep items), s)
           | _ => (Throw TypeError, s)
           end.

(** [Object.assign({}, source)] for a position object: a new object with the
    same [line] and [column]. *)
Definition Object_assign_empty (source : ref) : M ref :=
  fun s => match heap s !! source with
           | Some (PositionObject l c) => alloc (PositionObject l c) s
           | _ => (Throw TypeError, s)
           end.

(** [context.report(descriptor)] *)
Definition context_report (r : Report) : M unit :=
  fun s => (Normal tt, {| heap := heap s; reports := reports s ++ [r] |}).

(** ** The host's token store

    [sourceCode] belongs to the host (ESLint's [SourceCode]), not to the
    plugin.  Its three queries are modelled over the token list of the file,
    ordered by position; each returns [null] when no token qualifies. *)

Record SourceCode : Type := mkSourceCode { tokens : list Token }.

Definition accepts (filter : option (Token -> bool)) (token : Token) : bool :=
  match filter with
  | Some f => f token
  | None => true
  end.

(** The first token inside the range that the filter accepts. *)
Definition getFirstToken (sourceCode : SourceCode) (r : nat * nat)
    (filter : option (Token -> bool)) : option Token :=
  List.find (fun t => (fst r <=? fst (Token.range t))%nat
                      && (snd (Token.range t) <=? snd r)%nat
                      && accepts filter t)
            (tokens sourceCode).

(** The last token that ends before the range starts and that the filter
    accepts. *)
Definition getTokenBefore (sourceCode : SourceCode) (r : nat * nat)
    (filter : option (Token -> bool)) : option Token :=
  List.find (fun t => (snd (Token.range t) <=? fst r)%nat && accepts filter t)
            (rev (tokens sourceCode)).

(** The first token that starts after the range ends and that the filter
    accepts. *)
Definition getTokenAfter (sourceCode : SourceCode) (r : nat * nat)
    (filter : option (Token -> bool)) : option Token :=
  List.find (fun t => (snd r <=? fst (Token.range t))%nat && accepts filter t)
            (tokens sourceCode).

(** ** lib/rules/utils/ast-utils.js *)

Notation "a === b" := (String.eqb a b) (at level 70, no associativity).

Definition isOpeningParenToken (token : Token) : bool :=
  (Token.value token === "(") && (Token.type token === "Punctuator").

Definition isArrowToken (token : Token) : bool :=
  (Token.value token === "=>") && (Token.type token === "Punctuator").

(** Returns the token that opens the parameter list, or [null] when the host
    finds no parenthesis.  [deref] marks the places where the JavaScript reads
    a property of a value that the host may have returned as [null]:
    [argToken] inside [getTokenBefore], [maybeParenToken] inside
    [isOpeningParenToken]. *)
Definition getOpeningParenOfParams (node : ASTNode) (sourceCode : SourceCode)
    : M (option Token) :=
  if (Node.type node === "ArrowFunctionExpression")
     && (List.length (Node.params node) =? 1)%nat
  then
    let! param0 := deref (Node.params node !! 0) in
    let! argToken := deref (getFirstToken sourceCode (Node.range param0) None) in
    let! maybeParenToken :=
      deref (getTokenBefore sourceCode (Token.range argToken) None) in
    ret (Some (if isOpeningParenToken maybeParenToken
               then maybeParenToken else argToken))
  else
    match Node.id_ node with
    | Some id =>
        ret (getTokenAfter sourceCode (Node.range id) (Some isOpeningParenToken))
    | None =>
        ret (getFirstToken sourceCode (Node.range node) (Some isOpeningParenToken))
    end.

(** A string is truthy when it is not empty; [undefined] is falsy. *)
Definition truthyString (o : option string) : bool :=
  match o with
  | Some s => negb (s === "")
  | None => false
  end.

Definition isNullLiteral (node : ASTNode) : bool :=
  (Node.type node === "Literal") && isNull (Node.value node)
  && negb (bool_decide (is_Some (Node.regex node)))
  && negb (truthyString (Node.bigint node)).

Definition getStaticStringValue (node : ASTNode) : option string :=
  if Node.type node === "Literal" then
    if isNull (Node.value node) then
      if isNullLiteral node then Some (String_ (Node.value node))
      else
        match Node.regex node with
        | Some r => Some ("/" +:+ pattern r +:+ "/" +:+ flags r)
        | None =>
            if truthyString (Node.bigint node) then Node.bigint node
            else None
        end
    else Some (String_ (Node.value node))
  else if Node.type node === "TemplateLiteral" then
    if (List.length (Node.expressions node) =? 0)%nat
       && (List.length (Node.quasis node) =? 1)%nat
    then
      match Node.quasis node !! 0 with
      | Some quasi => cooked quasi
      | None => None
      end
    else None
  else None.

(** [getStaticPropertyName(node)]; the argument of the recursive call is
    [node.expression], which may be [null]: the [switch] then selects no case
    and the function returns [null]. *)
Fixpoint getStaticPropertyName (node : ASTNode) : option string :=
  if Node.type node === "ChainExpression" then
    match Node.expression node with
    | Some e => getStaticPropertyName e
    | None => None
    end
  else
    let prop :=
      if (Node.type node === "Property")
         || (Node.type node === "PropertyDefinition")
         || (Node.type node === "MethodDefinition")
      then Node.key node
      else if Node.type node === "MemberExpression" then Node.property node
      else None in
    match prop with
    | Some prop =>
        if (Node.type prop === "Identifier") && negb (Node.computed node)
        then Some (Node.name prop)
        else getStaticStringValue prop
    | None => None
    end.

(** [o === s] for a field that may be [undefined]. *)
Definition strictEq (o : option string) (s : string) : bool :=
  match o with
  | Some k => k === s
  | None => false
  end.

(** The [if]/[else if]/[else] of [getFunctionHeadLoc]: the position objects
    of the tree that it selects as [start] and [end]. *)
Definition selectHeadLoc (node : ASTNode) (sourceCode : SourceCode)
    : M (ref * ref) :=
  let! parent := deref (Node.parent node) in
  if (Node.type parent === "Property")
     || (Node.type parent === "MethodDefinition")
     || (Node.type parent === "PropertyDefinition")
  then
    let! paren := getOpeningParenOfParams node sourceCode in
    let! paren := deref paren in
    ret (start (Node.loc parent), start (Token.loc paren))
  else if Node.type node === "ArrowFunctionExpression" then
    let! body := deref (Node.body node) in
    let! arrowToken :=
      deref (getTokenBefore sourceCode (Node.range body) (Some isArrowToken)) in
    ret (start (Token.loc arrowToken), end_ (Token.loc arrowToken))
  else
    let! paren := getOpeningParenOfParams node sourceCode in
    let! paren := deref paren in
    ret (start (Node.loc node), start (Token.loc paren)).

(** [getFunctionHeadLoc]: the selection above, then the [return] that copies
    both position objects with [Object.assign({}, ...)]. *)
Definition getFunctionHeadLoc (node : ASTNode) (sourceCode : SourceCode)
    : M SourceLocation :=
  let! span := selectHeadLoc node sourceCode in
  let! start' := Object_assign_empty (fst span) in
  let! end' := Object_assign_empty (snd span) in
  ret {| start := start'; end_ := end' |}.

(** [!parent.computed && parent.key.type === "PrivateIdentifier"] *)
Definition hasPrivateKey (parent : ASTNode) : M bool :=
  if negb (Node.computed parent) then
    let! key := deref (Node.key parent) in
    ret (Node.type key === "PrivateIdentifier")
  else ret false.

(** The last [if] of [getFunctionNameWithKind]: the name, when there is one. *)
Definition pushName (node parent : ASTNode) (tokens : ref) : M unit :=
  let ownName :=
    match Node.id_ node with
    | Some id => push tokens ("'" +:+ Node.name id +:+ "'")
    | None => ret tt
    end in
  if (Node.type parent === "Property")
     || (Node.type parent === "MethodDefinition")
     || (Node.type parent === "PropertyDefinition")
  then
    let! private := hasPrivateKey parent in
    if private then
      let! key := deref (Node.key parent) in
      push tokens ("#" +:+ Node.name key)
    else
      match getStaticPropertyName parent with
      | Some name => push tokens ("'" +:+ name +:+ "'")
      | None => ownName
      end
  else ownName.

Definition getFunctionNameWithKind (node : ASTNode) : M string :=
  let! parent := deref (Node.parent node) in
  let! tokens := newArray in
  let finish := pushName node parent tokens >> join tokens " " in
  when ((Node.type parent === "MethodDefinition")
        || (Node.type parent === "PropertyDefinition"))
    (when (Node.static parent) (push tokens "static") >>
     let! private := hasPrivateKey parent in
     when private (push tokens "private")) >>
  when (Node.async node) (push tokens "async") >>
  when (Node.generator node) (push tokens "generator") >>
  if (Node.type parent === "Property") || (Node.type parent === "MethodDefinition")
  then
    if strictEq (Node.kind parent) "constructor" then ret "constructor"
    else
      (if strictEq (Node.kind parent) "get" then push tokens "getter"
       else if strictEq (Node.kind parent) "set" then push tokens "setter"
       else push tokens "method") >>
      finish
  else if Node.type parent === "PropertyDefinition" then
    push tokens "method" >> finish
  else
    when (Node.type node === "ArrowFunctionExpression") (push tokens "arrow") >>
    push tokens "function" >>
    finish.

(** ** lib/rules/better-max-params.js *)

(** [toUpperCase] on the ASCII letters; other characters are left alone.
    This is what JavaScript does on ASCII text; the labels that the rule
    capitalises begin with an ASCII letter. *)
Definition toUpperCaseChar (c : ascii) : ascii :=
  let n := nat_of_ascii c in
  if (97 <=? n)%nat && (n <=? 122)%nat then ascii_of_nat (n - 32) else c.

Fixpoint toUpperCase (s : string) : string :=
  match s with
  | EmptyString => EmptyString
  | String c rest => String (toUpperCaseChar c) (toUpperCase rest)
  end.

Definition upperCaseFirst (str : string) : string :=
  if (String.length str <=? 1)%nat then toUpperCase str
  else toUpperCase (substring 0 1 str)
       +:+ substring 1 (String.length str - 1) str.

Definition buildError (node : ASTNode) (name : string) (sourceCode : SourceCode)
    (constructorNumParams : option nat) : M Report :=
  let! loc := getFunctionHeadLoc node sourceCode in
  ret {| Report.loc := loc;
         Report.node := node;
         Report.messageId := "exceed";
         Report.data := {| Data.name := upperCaseFirst name;
                           Data.count := List.length (Node.params node);
                           Data.max := constructorNumParams |} |}.

(** The options object, as the schema admits it: each key is an integer that
    is at least 0, or reads as [undefined] (the rule's [defaultOptions] give
    both keys the value [undefined]). *)
Record RuleOptions : Type := mkOptions {
  func : option nat;
  constructor : option nat
}.

Record RuleContext : Type := mkContext {
  sourceCode : SourceCode;
  options : list RuleOptions
}.

(** [if (v)] on a number or [undefined]: 0 and [undefined] are falsy. *)
Definition truthyNumber (v : option nat) : bool :=
  match v with
  | Some (S _) => true
  | _ => false
  end.

(** [count > limit]; comparing with [undefined] is false. *)
Definition greaterThan (count : nat) (limit : option nat) : bool :=
  match limit with
  | Some m => (m <? count)%nat
  | None => false
  end.

(** [let funcNumParams; if (option) { if (option.func) funcNumParams = option.func; }] *)
Definition funcNumParams (context : RuleContext) : option nat :=
  match options context !! 0 with
  | Some option => if truthyNumber (func option) then func option else None
  | None => None
  end.

Definition constructorNumParams (context : RuleContext) : option nat :=
  match options context !! 0 with
  | Some option =>
      if truthyNumber (constructor option) then constructor option else None
  | None => None
  end.

(** The closure [checkFunction] of [create(context)]. *)
Definition checkFunction (context : RuleContext) (node : ASTNode) : M unit :=
  let! name := getFunctionNameWithKind node in
  if name === "constructor" then
    when (greaterThan (List.length (Node.params node)) (constructorNumParams context))
      (let! descriptor :=
         buildError node name (sourceCode context) (constructorNumParams context) in
       context_report descriptor)
  else
    when (greaterThan (List.length (Node.params node)) (funcNumParams context))
      (let! descriptor :=
         buildError node name (sourceCode context) (funcNumParams context) in
       context_report descriptor).

(** The listeners [create] returns, keyed by node type. *)
Definition create (context : RuleContext) : list (string * (ASTNode -> M unit)) :=
  [ ("FunctionDeclaration", checkFunction context);
    ("ArrowFunctionExpression", checkFunction context);
    ("FunctionExpression", checkFunction context) ].

(** The host's traversal: every visited node is handed to the listener
    registered under its type, in the order of the visit. *)
Fixpoint listenerFor (listeners : list (string * (ASTNode -> M unit)))
    (type : string) : option (ASTNode -> M unit) :=
  match listeners with
  | [] => None
  | (name, listener) :: rest =>
      if name === type then Some listener else listenerFor rest type
  end.

Fixpoint traverse (listeners : list (string * (ASTNode -> M unit)))
    (visited : list ASTNode) : M unit :=
  match visited with
  | [] => ret tt
  | node :: rest =>
      match listenerFor listeners (Node.type node) with
      | Some listener => listener node
      | None => ret tt
      end >>
      traverse listeners rest
  end.

Definition runRule (context : RuleContext) (visited : list ASTNode) : M unit :=
  traverse (create context) visited.


(** * Observing states *)

Definition emptyState : State := {| heap := []; reports := [] |}.

(** The value of a computation that does not read the state. *)
Definition valueOf {A} (m : M A) : completion A := fst (m emptyState).

(** A computation that neither reads nor writes the state. *)
Definition stateless {A} (m : M A) : Prop :=
  forall s, m s = (valueOf m, s).

(** What a reference holds, when it holds a position. *)
Definition readPosition (s : State) (r : ref) : option (nat * nat) :=
  match heap s !! r with
  | Some (PositionObject l c) => Some (l, c)
  | _ => None
  end.

(** The two positions of a span, as [(line, column)] pairs. *)
Definition readLoc (s : State) (loc : SourceLocation)
    : option ((nat * nat) * (nat * nat)) :=
  match readPosition s (start loc), readPosition s (end_ loc) with
  | Some a, Some b => Some (a, b)
  | _, _ => None
  end.

(** Every object of [s] is still there, with the same contents, in [s'], and
    the host has been told nothing new. *)
Definition preserves (s s' : State) : Prop :=
  reports s' = reports s /\ exists fresh, heap s' = heap s ++ fresh.


(** * Concrete programs

    Each program below is given with its text, its tokens (comments are not
    tokens), its nodes and the heap that holds their position objects.  The
    token with index [i] owns the references [2 * i] and [2 * i + 1]; nodes
    are numbered after the tokens.  A node value carries its ancestors in
    full; its children are listed without their link back to it, which the
    code never follows. *)

Definition newline : string := String (ascii_of_nat 10) EmptyString.

(** The position object of an offset: lines count from 1, columns from 0. *)
Fixpoint positionAt (text : string) (offset line column : nat) : HeapObject :=
  match offset, text with
  | S n, String c rest =>
      if (nat_of_ascii c =? 10)%nat then positionAt rest n (S line) 0
      else positionAt rest n line (S column)
  | _, _ => PositionObject line column
  end.

Definition locAt (index : nat) : SourceLocation :=
  {| start := 2 * index; end_ := 2 * index + 1 |}.

Definition tokenAt (text : string) (index : nat) (type : string)
    (range : nat * nat) : Token :=
  {| Token.type := type;
     Token.value := substring (fst range) (snd range - fst range) text;
     Token.range := range;
     Token.loc := locAt index |}.

Definition plainNode (type : string) (index : nat) (range : nat * nat)
    (parent : option ASTNode) : ASTNode :=
  Node.mk type range (locAt index) parent
    None [] None false false
    None false false None
    None None
    ""
    JSUndefined None None
    [] [].

Definition identifierNode (type : string) (index : nat) (range : nat * nat)
    (name : string) : ASTNode :=
  Node.mk type range (locAt index) None
    None [] None false false
    None false false None
    None None
    name
    JSUndefined None None
    [] [].

Definition functionNode (type : string) (index : nat) (range : nat * nat)
    (parent : option ASTNode) (id : option ASTNode) (params : list ASTNode)
    (body : option ASTNode) (async generator : bool) : ASTNode :=
  Node.mk type range (locAt index) parent
    id params body async generator
    None false false None
    None None
    ""
    JSUndefined None None
    [] [].

Definition memberNode (type : string) (index : nat) (range : nat * nat)
    (parent : option ASTNode) (key : option ASTNode) (computed static : bool)
    (kind : option string) : ASTNode :=
  Node.mk type range (locAt index) parent
    None [] None false false
    key computed static kind
    None None
    ""
    JSUndefined None None
    [] [].

Definition literalNode (value : JSValue) (regex : option RegExpInfo)
    (bigint : option string) : ASTNode :=
  Node.mk "Literal" (0, 0) (locAt 0) None
    None [] None false false
    None false false None
    None None
    ""
    value regex bigint
    [] [].

Definition templateNode (quasis : list TemplateElement)
    (expressions : list ASTNode) : ASTNode :=
  Node.mk "TemplateLiteral" (0, 0) (locAt 0) None
    None [] None false false
    None false false None
    None None
    ""
    JSUndefined None None
    quasis expressions.

Definition positionsOf (text : string) (range : nat * nat) : list HeapObject :=
  [positionAt text (fst range) 1 0; positionAt text (snd range) 1 0].

Definition positionObjects (text : string) (tokenList : list Token)
    (nodeList : list ASTNode) : Heap :=
  flat_map (positionsOf text)
    (map Token.range tokenList ++ map Node.range nodeList).

(** The tokens and nodes of a program are numbered as the heap lays them out,
    and every position reference is allocated. *)
Definition sameLoc (a b : SourceLocation) : bool :=
  (start a =? start b)%nat && (end_ a =? end_ b)%nat.

Definition wellNumbered (tokenList : list Token) (nodeList : list ASTNode)
    : bool :=
  forallb (fun p => sameLoc (Token.loc (snd p)) (locAt (fst p)))
    (imap (fun i t => (i, t)) tokenList)
  && forallb (fun p => sameLoc (Node.loc (snd p))
                         (locAt (List.length tokenList + fst p)))
       (imap (fun i n => (i, n)) nodeList).

(** The host reports columns from 1: [column + 1]. *)
Definition reportedColumn (column : nat) : nat := column + 1.

(** [function test(a, b, c) { // comment }], on three lines. *)
Module FunctionTest.

Definition text : string :=
  "function test(a, b, c) {" +:+ newline +:+ "  // comment" +:+ newline +:+ "}".

Definition tokenList : list Token :=
  [
    tokenAt text 0 "Keyword" (0, 8);
    tokenAt text 1 "Identifier" (9, 13);
    tokenAt text 2 "Punctuator" (13, 14);
    tokenAt text 3 "Identifier" (14, 15);
    tokenAt text 4 "Punctuator" (15, 16);
    tokenAt text 5 "Identifier" (17, 18);
    tokenAt text 6 "Punctuator" (18, 19);
    tokenAt text 7 "Identifier" (20, 21);
    tokenAt text 8 "Punctuator" (21, 22);
    tokenAt text 9 "Punctuator" (23, 24);
    tokenAt text 10 "Punctuator" (38, 39) ].

Definition source : SourceCode := {| tokens := tokenList |}.

Definition program : ASTNode :=
  plainNode "Program" 11 (0, 39) None.

Definition test_id : ASTNode :=
  identifierNode "Identifier" 12 (9, 13) "test".

Definition param_a : ASTNode :=
  identifierNode "Identifier" 13 (14, 15) "a".

Definition param_b : ASTNode :=
  identifierNode "Identifier" 14 (17, 18) "b".

Definition param_c : ASTNode :=
  identifierNode "Identifier" 15 (20, 21) "c".

Definition block : ASTNode :=
  plainNode "BlockStatement" 16 (23, 39) None.

Definition test : ASTNode :=
  functionNode "FunctionDeclaration" 17 (0, 39) (Some program)
    (Some test_id) [param_a; param_b; param_c] (Some block) false false.

Definition nodeList : list ASTNode :=
  [program;
   test_id;
   param_a;
   param_b;
   param_c;
   block;
   test].

(** The nodes in the order in which the traversal enters them. *)
Definition visited : list ASTNode :=
  [program;
   test;
   test_id;
   param_a;
   param_b;
   param_c;
   block].

(** The position objects of the tokens, then of the nodes. *)
Definition state : State :=
  {| heap := positionObjects text tokenList nodeList; reports := [] |}.

End FunctionTest.

(** The class of the end-to-end scenario. *)
Module ClassTest.

Definition text : string :=
  "class Test {" +:+ newline +:+ "  constructor(a, b, c) {}" +:+ newline +:+ "  wrongMethod(a, b, c, d, e) {}" +:+ newline +:+ "}".

Definition tokenList : list Token :=
  [
    tokenAt text 0 "Keyword" (0, 5);
    tokenAt text 1 "Identifier" (6, 10);
    tokenAt text 2 "Punctuator" (11, 12);
    tokenAt text 3 "Identifier" (15, 26);
    tokenAt text 4 "Punctuator" (26, 27);
    tokenAt text 5 "Identifier" (27, 28);
    tokenAt text 6 "Punctuator" (28, 29);
    tokenAt text 7 "Identifier" (30, 31);
    tokenAt text 8 "Punctuator" (31, 32);
    tokenAt text 9 "Identifier" (33, 34);
    tokenAt text 10 "Punctuator" (34, 35);
    tokenAt text 11 "Punctuator" (36, 37);
    tokenAt text 12 "Punctuator" (37, 38);
    tokenAt text 13 "Identifier" (41, 52);
    tokenAt text 14 "Punctuator" (52, 53);
    tokenAt text 15 "Identifier" (53, 54);
    tokenAt text 16 "Punctuator" (54, 55);
    tokenAt text 17 "Identifier" (56, 57);
    tokenAt text 18 "Punctuator" (57, 58);
    tokenAt text 19 "Identifier" (59, 60);
    tokenAt text 20 "Punctuator" (60, 61);
    tokenAt text 21 "Identifier" (62, 63);
    tokenAt text 22 "Punctuator" (63, 64);
    tokenAt text 23 "Identifier" (65, 66);
    tokenAt text 24 "Punctuator" (66, 67);
    tokenAt text 25 "Punctuator" (68, 69);
    tokenAt text 26 "Punctuator" (69, 70);
    tokenAt text 27 "Punctuator" (71, 72) ].

Definition source : SourceCode := {| tokens := tokenList |}.

Definition program : ASTNode :=
  plainNode "Program" 28 (0, 72) None.

Definition classDeclaration : ASTNode :=
  plainNode "ClassDeclaration" 29 (0, 72) (Some program).

Definition class_id : ASTNode :=
  identifierNode "Identifier" 30 (6, 10) "Test".

Definition classBody : ASTNode :=
  plainNode "ClassBody" 31 (11, 72) (Some classDeclaration).

Definition constructor_key : ASTNode :=
  identifierNode "Identifier" 32 (15, 26) "constructor".

Definition constructorDefinition : ASTNode :=
  memberNode "MethodDefinition" 33 (15, 38) (Some classBody)
    (Some constructor_key) false false (Some "constructor").

Definition constructor_a : ASTNode :=
  identifierNode "Identifier" 34 (27, 28) "a".

Definition constructor_b : ASTNode :=
  identifierNode "Identifier" 35 (30, 31) "b".

Definition constructor_c : ASTNode :=
  identifierNode "Identifier" 36 (33, 34) "c".

Definition constructor_block : ASTNode :=
  plainNode "BlockStatement" 37 (36, 38) None.

Definition constructorFunction : ASTNode :=
  functionNode "FunctionExpression" 38 (26, 38) (Some constructorDefinition)
    None [constructor_a; constructor_b; constructor_c] (Some constructor_block) false false.

Definition wrongMethod_key : ASTNode :=
  identifierNode "Identifier" 39 (41, 52) "wrongMethod".

Definition wrongMethodDefinition : ASTNode :=
  memberNode "MethodDefinition" 40 (41, 70) (Some classBody)
    (Some wrongMethod_key) false false (Some "method").

Definition wrongMethod_a : ASTNode :=
  identifierNode "Identifier" 41 (53, 54) "a".

Definition wrongMethod_b : ASTNode :=
  identifierNode "Identifier" 42 (56, 57) "b".

Definition wrongMethod_c : ASTNode :=
  identifierNode "Identifier" 43 (59, 60) "c".

Definition wrongMethod_d : ASTNode :=
  identifierNode "Identifier" 44 (62, 63) "d".

Definition wrongMethod_e : ASTNode :=
  identifierNode "Identifier" 45 (65, 66) "e".

Definition wrongMethod_block : ASTNode :=
  plainNode "BlockStatement" 46 (68, 70) None.

Definition wrongMethodFunction : ASTNode :=
  functionNode "FunctionExpression" 47 (52, 70) (Some wrongMethodDefinition)
    None [wrongMethod_a; wrongMethod_b; wrongMethod_c; wrongMethod_d; wrongMethod_e] (Some wrongMethod_block) false false.

Definition nodeList : list ASTNode :=
  [program;
   classDeclaration;
   class_id;
   classBody;
   constructor_key;
   constructorDefinition;
   constructor_a;
   constructor_b;
   constructor_c;
   constructor_block;
   constructorFunction;
   wrongMethod_key;
   wrongMethodDefinition;
   wrongMethod_a;
   wrongMethod_b;
   wrongMethod_c;
   wrongMethod_d;
   wrongMethod_e;
   wrongMethod_block;
   wrongMethodFunction].

(** The nodes in the order in which the traversal enters them. *)
Definition visited : list ASTNode :=
  [program;
   classDeclaration;
   class_id;
   classBody;
   constructorDefinition;
   constructor_key;
   constructorFunction;
   constructor_a;
   constructor_b;
   constructor_c;
   constructor_block;
   wrongMethodDefinition;
   wrongMethod_key;
   wrongMethodFunction;
   wrongMethod_a;
   wrongMethod_b;
   wrongMethod_c;
   wrongMethod_d;
   wrongMethod_e;
   wrongMethod_block].

(** The position objects of the tokens, then of the nodes. *)
Definition state : State :=
  {| heap := positionObjects text tokenList nodeList; reports := [] |}.

End ClassTest.

(** [x => x] as a whole program: no token stands before the parameter. *)
Module BareArrow.

Definition text : string :=
  "x => x".

Definition tokenList : list Token :=
  [
    tokenAt text 0 "Identifier" (0, 1);
    tokenAt text 1 "Punctuator" (2, 4);
    tokenAt text 2 "Identifier" (5, 6) ].

Definition source : SourceCode := {| tokens := tokenList |}.

Definition program : ASTNode :=
  plainNode "Program" 3 (0, 6) None.

Definition statement : ASTNode :=
  plainNode "ExpressionStatement" 4 (0, 6) (Some program).

Definition param_x : ASTNode :=
  identifierNode "Identifier" 5 (0, 1) "x".

Definition body_x : ASTNode :=
  identifierNode "Identifier" 6 (5, 6) "x".

Definition arrow : ASTNode :=
  functionNode "ArrowFunctionExpression" 7 (0, 6) (Some statement)
    None [param_x] (Some body_x) false false.

Definition nodeList : list ASTNode :=
  [program;
   statement;
   param_x;
   body_x;
   arrow].

(** The nodes in the order in which the traversal enters them. *)
Definition visited : list ASTNode :=
  [program;
   statement;
   arrow;
   param_x;
   body_x].

(** The position objects of the tokens, then of the nodes. *)
Definition state : State :=
  {| heap := positionObjects text tokenList nodeList; reports := [] |}.

End BareArrow.

(** [({ f: x => x, g: (y) => y })]: arrows with one parameter, as properties. *)
Module ArrowProperties.

Definition text : string :=
  "({ f: x => x, g: (y) => y })".

Definition tokenList : list Token :=
  [
    tokenAt text 0 "Punctuator" (0, 1);
    tokenAt text 1 "Punctuator" (1, 2);
    tokenAt text 2 "Identifier" (3, 4);
    tokenAt text 3 "Punctuator" (4, 5);
    tokenAt text 4 "Identifier" (6, 7);
    tokenAt text 5 "Punctuator" (8, 10);
    tokenAt text 6 "Identifier" (11, 12);
    tokenAt text 7 "Punctuator" (12, 13);
    tokenAt text 8 "Identifier" (14, 15);
    tokenAt text 9 "Punctuator" (15, 16);
    tokenAt text 10 "Punctuator" (17, 18);
    tokenAt text 11 "Identifier" (18, 19);
    tokenAt text 12 "Punctuator" (19, 20);
    tokenAt text 13 "Punctuator" (21, 23);
    tokenAt text 14 "Identifier" (24, 25);
    tokenAt text 15 "Punctuator" (26, 27);
    tokenAt text 16 "Punctuator" (27, 28) ].

Definition source : SourceCode := {| tokens := tokenList |}.

Definition program : ASTNode :=
  plainNode "Program" 17 (0, 28) None.

Definition statement : ASTNode :=
  plainNode "ExpressionStatement" 18 (0, 28) (Some program).

Definition object : ASTNode :=
  plainNode "ObjectExpression" 19 (1, 27) (Some statement).

Definition f_key : ASTNode :=
  identifierNode "Identifier" 20 (3, 4) "f".

Definition f_property : ASTNode :=
  memberNode "Property" 21 (3, 12) (Some object)
    (Some f_key) false false (Some "init").

Definition param_x : ASTNode :=
  identifierNode "Identifier" 22 (6, 7) "x".

Definition body_x : ASTNode :=
  identifierNode "Identifier" 23 (11, 12) "x".

Definition f_arrow : ASTNode :=
  functionNode "ArrowFunctionExpression" 24 (6, 12) (Some f_property)
    None [param_x] (Some body_x) false false.

Definition g_key : ASTNode :=
  identifierNode "Identifier" 25 (14, 15) "g".

Definition g_property : ASTNode :=
  memberNode "Property" 26 (14, 25) (Some object)
    (Some g_key) false false (Some "init").

Definition param_y : ASTNode :=
  identifierNode "Identifier" 27 (18, 19) "y".

Definition body_y : ASTNode :=
  identifierNode "Identifier" 28 (24, 25) "y".

Definition g_arrow : ASTNode :=
  functionNode "ArrowFunctionExpression" 29 (17, 25) (Some g_property)
    None [param_y] (Some body_y) false false.

Definition nodeList : list ASTNode :=
  [program;
   statement;
   object;
   f_key;
   f_property;
   param_x;
   body_x;
   f_arrow;
   g_key;
   g_property;
   param_y;
   body_y;
   g_arrow].

(** The nodes in the order in which the traversal enters them. *)
Definition visited : list ASTNode :=
  [program;
   statement;
   object;
   f_property;
   f_key;
   f_arrow;
   param_x;
   body_x;
   g_property;
   g_key;
   g_arrow;
   param_y;
   body_y].

(** The position objects of the tokens, then of the nodes. *)
Definition state : State :=
  {| heap := positionObjects text tokenList nodeList; reports := [] |}.

End ArrowProperties.

(** [var f = async (a, b) => {};] *)
Module AsyncArrow.

Definition text : string :=
  "var f = async (a, b) => {};".

Definition tokenList : list Token :=
  [
    tokenAt text 0 "Keyword" (0, 3);
    tokenAt text 1 "Identifier" (4, 5);
    tokenAt text 2 "Punctuator" (6, 7);
    tokenAt text 3 "Identifier" (8, 13);
    tokenAt text 4 "Punctuator" (14, 15);
    tokenAt text 5 "Identifier" (15, 16);
    tokenAt text 6 "Punctuator" (16, 17);
    tokenAt text 7 "Identifier" (18, 19);
    tokenAt text 8 "Punctuator" (19, 20);
    tokenAt text 9 "Punctuator" (21, 23);
    tokenAt text 10 "Punctuator" (24, 25);
    tokenAt text 11 "Punctuator" (25, 26);
    tokenAt text 12 "Punctuator" (26, 27) ].

Definition source : SourceCode := {| tokens := tokenList |}.

Definition program : ASTNode :=
  plainNode "Program" 13 (0, 27) None.

Definition declaration : ASTNode :=
  plainNode "VariableDeclaration" 14 (0, 27) (Some program).

Definition declarator : ASTNode :=
  plainNode "VariableDeclarator" 15 (4, 26) (Some declaration).

Definition param_a : ASTNode :=
  identifierNode "Identifier" 16 (15, 16) "a".

Definition param_b : ASTNode :=
  identifierNode "Identifier" 17 (18, 19) "b".

Definition block : ASTNode :=
  plainNode "BlockStatement" 18 (24, 26) None.

Definition arrow : ASTNode :=
  functionNode "ArrowFunctionExpression" 19 (8, 26) (Some declarator)
    None [param_a; param_b] (Some block) true false.

Definition nodeList : list ASTNode :=
  [program;
   declaration;
   declarator;
   param_a;
   param_b;
   block;
   arrow].

(** The nodes in the order in which the traversal enters them. *)
Definition visited : list ASTNode :=
  [program;
   declaration;
   declarator;
   arrow;
   param_a;
   param_b;
   block].

(** The position objects of the tokens, then of the nodes. *)
Definition state : State :=
  {| heap := positionObjects text tokenList nodeList; reports := [] |}.

End AsyncArrow.

(** [var f = function(a, b, c, d) {};] *)
Module AnonymousFunction.

Definition text : string :=
  "var f = function(a, b, c, d) {};".

Definition tokenList : list Token :=
  [
    tokenAt text 0 "Keyword" (0, 3);
    tokenAt text 1 "Identifier" (4, 5);
    tokenAt text 2 "Punctuator" (6, 7);
    tokenAt text 3 "Keyword" (8, 16);
    tokenAt text 4 "Punctuator" (16, 17);
    tokenAt text 5 "Identifier" (17, 18);
    tokenAt text 6 "Punctuator" (18, 19);
    tokenAt text 7 "Identifier" (20, 21);
    tokenAt text 8 "Punctuator" (21, 22);
    tokenAt text 9 "Identifier" (23, 24);
    tokenAt text 10 "Punctuator" (24, 25);
    tokenAt text 11 "Identifier" (26, 27);
    tokenAt text 12 "Punctuator" (27, 28);
    tokenAt text 13 "Punctuator" (29, 30);
    tokenAt text 14 "Punctuator" (30, 31);
    tokenAt text 15 "Punctuator" (31, 32) ].

Definition source : SourceCode := {| tokens := tokenList |}.

Definition program : ASTNode :=
  plainNode "Program" 16 (0, 32) None.

Definition declaration : ASTNode :=
  plainNode "VariableDeclaration" 17 (0, 32) (Some program).

Definition declarator : ASTNode :=
  plainNode "VariableDeclarator" 18 (4, 31) (Some declaration).

Definition param_a : ASTNode :=
  identifierNode "Identifier" 19 (17, 18) "a".

Definition param_b : ASTNode :=
  identifierNode "Identifier" 20 (20, 21) "b".

Definition param_c : ASTNode :=
  identifierNode "Identifier" 21 (23, 24) "c".

Definition param_d : ASTNode :=
  identifierNode "Identifier" 22 (26, 27) "d".

Definition block : ASTNode :=
  plainNode "BlockStatement" 23 (29, 31) None.

Definition function : ASTNode :=
  functionNode "FunctionExpression" 24 (8, 31) (Some declarator)
    None [param_a; param_b; param_c; param_d] (Some block) false false.

Definition nodeList : list ASTNode :=
  [program;
   declaration;
   declarator;
   param_a;
   param_b;
   param_c;
   param_d;
   block;
   function].

(** The nodes in the order in which the traversal enters them. *)
Definition visited : list ASTNode :=
  [program;
   declaration;
   declarator;
   function;
   param_a;
   param_b;
   param_c;
   param_d;
   block].

(** The position objects of the tokens, then of the nodes. *)
Definition state : State :=
  {| heap := positionObjects text tokenList nodeList; reports := [] |}.

End AnonymousFunction.

(** [var f = (a, b, c, d) => {};] *)
Module AnonymousArrow.

Definition text : string :=
  "var f = (a, b, c, d) => {};".

Definition tokenList : list Token :=
  [
    tokenAt text 0 "Keyword" (0, 3);
    tokenAt text 1 "Identifier" (4, 5);
    tokenAt text 2 "Punctuator" (6, 7);
    tokenAt text 3 "Punctuator" (8, 9);
    tokenAt text 4 "Identifier" (9, 10);
    tokenAt text 5 "Punctuator" (10, 11);
    tokenAt text 6 "Identifier" (12, 13);
    tokenAt text 7 "Punctuator" (13, 14);
    tokenAt text 8 "Identifier" (15, 16);
    tokenAt text 9 "Punctuator" (16, 17);
    tokenAt text 10 "Identifier" (18, 19);
    tokenAt text 11 "Punctuator" (19, 20);
    tokenAt text 12 "Punctuator" (21, 23);
    tokenAt text 13 "Punctuator" (24, 25);
    tokenAt text 14 "Punctuator" (25, 26);
    tokenAt text 15 "Punctuator" (26, 27) ].

Definition source : SourceCode := {| tokens := tokenList |}.

Definition program : ASTNode :=
  plainNode "Program" 16 (0, 27) None.

Definition declaration : ASTNode :=
  plainNode "VariableDeclaration" 17 (0, 27) (Some program).

Definition declarator : ASTNode :=
  plainNode "VariableDeclarator" 18 (4, 26) (Some declaration).

Definition param_a : ASTNode :=
  identifierNode "Identifier" 19 (9, 10) "a".

Definition param_b : ASTNode :=
  identifierNode "Identifier" 20 (12, 13) "b".

Definition param_c : ASTNode :=
  identifierNode "Identifier" 21 (15, 16) "c".

Definition param_d : ASTNode :=
  identifierNode "Identifier" 22 (18, 19) "d".

Definition block : ASTNode :=
  plainNode "BlockStatement" 23 (24, 26) None.

Definition arrow : ASTNode :=
  functionNode "ArrowFunctionExpression" 24 (8, 26) (Some declarator)
    None [param_a; param_b; param_c; param_d] (Some block) false false.

Definition nodeList : list ASTNode :=
  [program;
   declaration;
   declarator;
   param_a;
   param_b;
   param_c;
   param_d;
   block;
   arrow].

(** The nodes in the order in which the traversal enters them. *)
Definition visited : list ASTNode :=
  [program;
   declaration;
   declarator;
   arrow;
   param_a;
   param_b;
   param_c;
   param_d;
   block].

(** The position objects of the tokens, then of the nodes. *)
Definition state : State :=
  {| heap := positionObjects text tokenList nodeList; reports := [] |}.

End AnonymousArrow.

(** [(function*() {});] *)
Module AnonymousGenerator.

Definition text : string :=
  "(function*() {});".

Definition tokenList : list Token :=
  [
    tokenAt text 0 "Punctuator" (0, 1);
    tokenAt text 1 "Keyword" (1, 9);
    tokenAt text 2 "Punctuator" (9, 10);
    tokenAt text 3 "Punctuator" (10, 11);
    tokenAt text 4 "Punctuator" (11, 12);
    tokenAt text 5 "Punctuator" (13, 14);
    tokenAt text 6 "Punctuator" (14, 15);
    tokenAt text 7 "Punctuator" (15, 16);
    tokenAt text 8 "Punctuator" (16, 17) ].

Definition source : SourceCode := {| tokens := tokenList |}.

Definition program : ASTNode :=
  plainNode "Program" 9 (0, 17) None.

Definition statement : ASTNode :=
  plainNode "ExpressionStatement" 10 (0, 17) (Some program).

Definition block : ASTNode :=
  plainNode "BlockStatement" 11 (13, 15) None.

Definition function : ASTNode :=
  functionNode "FunctionExpression" 12 (1, 15) (Some statement)
    None [] (Some block) false true.

Definition nodeList : list ASTNode :=
  [program;
   statement;
   block;
   function].

(** The nodes in the order in which the traversal enters them. *)
Definition visited : list ASTNode :=
  [program;
   statement;
   function;
   block].

(** The position objects of the tokens, then of the nodes. *)
Definition state : State :=
  {| heap := positionObjects text tokenList nodeList; reports := [] |}.

End AnonymousGenerator.

(** A member-like node: the parent of a method, an accessor, a constructor or
    a function-valued class field. *)
Definition memberLike (parent : ASTNode) : Prop :=
  Node.type parent = "Property"
  \/ Node.type parent = "MethodDefinition"
  \/ Node.type parent = "PropertyDefinition".

(** The options of the scenarios. *)
Definition contextOf (sc : SourceCode) (func constructor : option nat)
    : RuleContext :=
  {| sourceCode := sc;
     options := [ {| func := func; constructor := constructor |} ] |}.

(** * The label, word by word

    The words of a label as an ordered list, read from the tests that
    [getFunctionNameWithKind] makes; [labelOf] joins them.  The lemmas below
    show that the array the function fills holds this list. *)

(** [!parent.computed && parent.key.type === "PrivateIdentifier"], for a
    parent that has a key. *)
Definition privateKey (parent : ASTNode) : bool :=
  negb (Node.computed parent)
  && match Node.key parent with
     | Some key => Node.type key === "PrivateIdentifier"
     | None => false
     end.

Definition modifierWords (node parent : ASTNode) : list string :=
  (if (Node.type parent === "MethodDefinition")
      || (Node.type parent === "PropertyDefinition")
   then (if Node.static parent then ["static"] else [])
        ++ (if privateKey parent then ["private"] else [])
   else [])
  ++ (if Node.async node then ["async"] else [])
  ++ (if Node.generator node then ["generator"] else []).

Definition kindWords (node parent : ASTNode) : list string :=
  if (Node.type parent === "Property") || (Node.type parent === "MethodDefinition")
  then
    [if strictEq (Node.kind parent) "get" then "getter"
     else if strictEq (Node.kind parent) "set" then "setter"
     else "method"]
  else if Node.type parent === "PropertyDefinition" then ["method"]
  else (if Node.type node === "ArrowFunctionExpression" then ["arrow"] else [])
       ++ ["function"].

Definition ownNameWords (node : ASTNode) : list string :=
  match Node.id_ node with
  | Some id => ["'" +:+ Node.name id +:+ "'"]
  | None => []
  end.

Definition nameWords (node parent : ASTNode) : list string :=
  if (Node.type parent === "Property")
     || (Node.type parent === "MethodDefinition")
     || (Node.type parent === "PropertyDefinition")
  then
    if privateKey parent then
      match Node.key parent with
      | Some key => ["#" +:+ Node.name key]
      | None => []
      end
    else
      match getStaticPropertyName parent with
      | Some name => ["'" +:+ name +:+ "'"]
      | None => ownNameWords node
      end
  else ownNameWords node.

Definition labelWords (node parent : ASTNode) : list string :=
  modifierWords node parent ++ kindWords node parent ++ nameWords node parent.

Definition isConstructorMember (parent : ASTNode) : bool :=
  ((Node.type parent === "Property") || (Node.type parent === "MethodDefinition"))
  && strictEq (Node.kind parent) "constructor".

Definition labelOf (node parent : ASTNode) : string :=
  if isConstructorMember parent then "constructor"
  else String.concat " " (labelWords node parent).

(** A lower-case letter of ASCII. *)
Definition isLowerCase (c : ascii) : bool :=
  (97 <=? nat_of_ascii c)%nat && (nat_of_ascii c <=? 122)%nat.

(** * What the rule says of one node

    The verdict on a node, computed from its label and the two limits alone:
    the [data] of the violation, or nothing. *)

Definition isFunctionLike (type : string) : bool :=
  (type === "FunctionDeclaration")
  || (type === "ArrowFunctionExpression")
  || (type === "FunctionExpression").

Definition verdict (context : RuleContext) (node : ASTNode) : option Data.t :=
  match valueOf (getFunctionNameWithKind node) with
  | Normal name =>
      let limit := if name === "constructor" then constructorNumParams context
                   else funcNumParams context in
      if greaterThan (List.length (Node.params node)) limit
      then Some {| Data.name := upperCaseFirst name;
                   Data.count := List.length (Node.params node);
                   Data.max := limit |}
      else None
  | Throw _ => None
  end.

Definition verdicts (context : RuleContext) (visited : list ASTNode)
    : list (ASTNode * Data.t) :=
  flat_map (fun node =>
              if isFunctionLike (Node.type node)
              then match verdict context node with
                   | Some data => [(node, data)]
                   | None => []
                   end
              else [])
    visited.

(** What a report says, apart from the references of its span. *)
Definition reported (r : Report) : ASTNode * Data.t :=
  (Report.node r, Report.data r).

(** [node] is [inner] under any number of ChainExpression wrappers. *)
Inductive unwrapsTo : ASTNode -> ASTNode -> Prop :=
| unwraps_here (node : ASTNode) :
    Node.type node <> "ChainExpression" -> unwrapsTo node node
| unwraps_chain (node expression inner : ASTNode) :
    Node.type node = "ChainExpression" ->
    Node.expression node = Some expression ->
    unwrapsTo expression inner ->
    unwrapsTo node inner.

Definition chainNode (expression : option ASTNode) : ASTNode :=
  Node.mk "ChainExpression" (0, 0) (locAt 0) None
    None [] None false false
    None false false None
    None expression
    ""
    JSUndefined None None
    [] [].

Definition memberExpressionNode (property : option ASTNode) (computed : bool)
    : ASTNode :=
  Node.mk "MemberExpression" (0, 0) (locAt 0) None
    None [] None false false
    None computed false None
    property None
    ""
    JSUndefined None None
    [] [].

(** The words with which a label can begin. *)
Definition leadingWords : list string :=
  ["static"; "private"; "async"; "generator";
   "getter"; "setter"; "method"; "arrow"; "function"].

(** Members used as examples: [{ [b]: ... }], [#foo() {}], [{ [100]: ... }]
    and a Property that has lost its key. *)
Definition computedIdentifierProperty : ASTNode :=
  memberNode "Property" 0 (0, 0) None
    (Some (identifierNode "Identifier" 0 (0, 0) "b")) true false (Some "init").

Definition privateMethod : ASTNode :=
  memberNode "MethodDefinition" 0 (0, 0) None
    (Some (identifierNode "PrivateIdentifier" 0 (0, 0) "foo")) false false
    (Some "method").

Definition numericProperty : ASTNode :=
  memberNode "Property" 0 (0, 0) None
    (Some (literalNode (JSNumber 100) None None)) true false (Some "init").

Definition keylessProperty : ASTNode :=
  memberNode "Property" 0 (0, 0) None None false false (Some "init").

(** * Reasoning about runs *)

Lemma lookup_fresh (h : Heap) (o : HeapObject) :
  (h ++ [o]) !! List.length h = Some o.
Proof. by apply list_lookup_middle. Qed.

Lemma insert_fresh (h : Heap) (o o' : HeapObject) :
  <[List.length h := o']> (h ++ [o]) = h ++ [o'].
Proof.
  rewrite insert_app_r_alt by lia.
  by rewrite Nat.sub_diag.
Qed.

Lemma push_fresh (h : Heap) (items : list string) (x : string) (r : list Report) :
  push (List.length h) x {| heap := h ++ [ArrayObject items]; reports := r |}
  = (Normal tt, {| heap := h ++ [ArrayObject (items ++ [x])]; reports := r |}).
Proof.
  unfold push. cbn [heap reports].
  by rewrite lookup_fresh, insert_fresh.
Qed.

Lemma join_fresh (h : Heap) (items : list string) (sep : string) (r : list Report) :
  join (List.length h) sep {| heap := h ++ [ArrayObject items]; reports := r |}
  = (Normal (String.concat sep items),
     {| heap := h ++ [ArrayObject items]; reports := r |}).
Proof.
  unfold join. cbn [heap reports].
  by rewrite lookup_fresh.
Qed.

Lemma push_first (items : list string) (x : string) (r : list Report) :
  push 0 x {| heap := [ArrayObject items]; reports := r |}
  = (Normal tt, {| heap := [ArrayObject (items ++ [x])]; reports := r |}).
Proof. exact (push_fresh [] items x r). Qed.

Lemma join_first (items : list string) (sep : string) (r : list Report) :
  join 0 sep {| heap := [ArrayObject items]; reports := r |}
  = (Normal (String.concat sep items),
     {| heap := [ArrayObject items]; reports := r |}).
Proof. exact (join_fresh [] items sep r). Qed.

#[local] Arguments push : simpl never.
#[local] Arguments join : simpl never.

(** One step of a symbolic run: reduce, perform a [push] or [join] on the
    array allocated last, or split on the next test. *)
Ltac run_step :=
  first
    [ rewrite push_fresh
    | rewrite join_fresh
    | rewrite push_first
    | rewrite join_first
    | progress cbn
    | match goal with
      | |- context [(match ?o with Some _ => _ | None => _ end) ?s] =>
          destruct o eqn:?
      | |- context [(if ?b then _ else _) ?s] => destruct b eqn:?
      end ].

Ltac run := repeat run_step.

(** The labeler runs on any state as it runs on the empty one: all it adds to
    the heap is its own array. *)
Lemma getFunctionNameWithKind_frame (node : ASTNode) (s : State) :
  getFunctionNameWithKind node s
  = (fst (getFunctionNameWithKind node emptyState),
     {| heap := heap s ++ heap (snd (getFunctionNameWithKind node emptyState));
        reports := reports s |}).
Proof.
  destruct s as [h r].
  unfold getFunctionNameWithKind, pushName, hasPrivateKey, emptyState.
  destruct (Node.parent node) as [parent|]; cbn.
  2: { by rewrite app_nil_r. }
  unfold bind, when, ret, deref, throw, newArray, alloc.
  run.
  all: try reflexivity.
  all: try by rewrite app_nil_r.
Qed.

Lemma stateless_ret {A} (a : A) : stateless (ret a).
Proof. intros s. reflexivity. Qed.

Lemma stateless_throw {A} (e : JSError) : stateless (@throw A e).
Proof. intros s. reflexivity. Qed.

Lemma stateless_deref {A} (o : option A) : stateless (deref o).
Proof. destruct o; intros s; reflexivity. Qed.

Lemma stateless_bind {A B} (m : M A) (k : A -> M B) :
  stateless m -> (forall a, stateless (k a)) -> stateless (bind m k).
Proof.
  intros Hm Hk s. unfold valueOf, bind.
  rewrite (Hm s), (Hm emptyState).
  destruct (valueOf m) as [a|e]; [|reflexivity].
  rewrite (Hk a s), (Hk a emptyState). reflexivity.
Qed.

Lemma stateless_if {A} (b : bool) (m1 m2 : M A) :
  stateless m1 -> stateless m2 -> stateless (if b then m1 else m2).
Proof. destruct b; auto. Qed.

Lemma valueOf_bind {A B} (m : M A) (k : A -> M B) :
  stateless m ->
  valueOf (bind m k)
  = match valueOf m with
    | Normal a => valueOf (k a)
    | Throw e => Throw e
    end.
Proof.
  intros Hm. unfold valueOf at 1. unfold bind. rewrite (Hm emptyState).
  destruct (valueOf m); reflexivity.
Qed.

Ltac stateless_tac :=
  repeat first
    [ apply stateless_ret
    | apply stateless_throw
    | apply stateless_deref
    | apply stateless_if
    | apply stateless_bind; [|intros ?]
    | match goal with
      | |- stateless (match ?o with Some _ => _ | None => _ end) => destruct o
      end ].

Lemma getOpeningParenOfParams_stateless (node : ASTNode) (sc : SourceCode) :
  stateless (getOpeningParenOfParams node sc).
Proof. unfold getOpeningParenOfParams. stateless_tac. Qed.

Lemma selectHeadLoc_stateless (node : ASTNode) (sc : SourceCode) :
  stateless (selectHeadLoc node sc).
Proof.
  unfold selectHeadLoc. stateless_tac;
    apply getOpeningParenOfParams_stateless.
Qed.

Lemma hasPrivateKey_stateless (parent : ASTNode) : stateless (hasPrivateKey parent).
Proof. unfold hasPrivateKey. stateless_tac. Qed.

Lemma preserves_refl (s : State) : preserves s s.
Proof. split; [reflexivity|]. exists []. by rewrite app_nil_r. Qed.

Lemma preserves_trans (s1 s2 s3 : State) :
  preserves s1 s2 -> preserves s2 s3 -> preserves s1 s3.
Proof.
  intros [Hr1 [f1 Hh1]] [Hr2 [f2 Hh2]]. split; [congruence|].
  exists (f1 ++ f2). rewrite Hh2, Hh1. by rewrite app_assoc.
Qed.

Lemma preserves_lookup (s s' : State) (r : ref) (o : HeapObject) :
  preserves s s' -> heap s !! r = Some o -> heap s' !! r = Some o.
Proof.
  intros [_ [fresh Hh]] Hr. rewrite Hh. by apply lookup_app_l_Some.
Qed.

Lemma preserves_readPosition (s s' : State) (r : ref) (p : nat * nat) :
  preserves s s' -> readPosition s r = Some p -> readPosition s' r = Some p.
Proof.
  unfold readPosition. intros Hp Hr.
  destruct (heap s !! r) as [o|] eqn:Ho; [|discriminate].
  by rewrite (preserves_lookup s s' r o Hp Ho).
Qed.

(** A run of [getFunctionHeadLoc] whose selection succeeds on two position
    objects: both are copied to the end of the heap, in this order. *)
Lemma getFunctionHeadLoc_copies (node : ASTNode) (sc : SourceCode) (s : State)
    (a b : ref) (pa pb : nat * nat) :
  valueOf (selectHeadLoc node sc) = Normal (a, b) ->
  readPosition s a = Some pa ->
  readPosition s b = Some pb ->
  getFunctionHeadLoc node sc s
  = (Normal {| start := List.length (heap s); end_ := S (List.length (heap s)) |},
     {| heap := heap s ++ [PositionObject (fst pa) (snd pa);
                           PositionObject (fst pb) (snd pb)];
        reports := reports s |}).
Proof.
  intros Hsel Ha Hb. unfold getFunctionHeadLoc.
  unfold bind at 1. rewrite (selectHeadLoc_stateless node sc s), Hsel.
  cbn [fst snd].
  unfold readPosition in Ha, Hb.
  destruct (heap s !! a) as [[la ca|]|] eqn:Hla; try discriminate.
  destruct (heap s !! b) as [[lb cb|]|] eqn:Hlb; try discriminate.
  injection Ha as <-. injection Hb as <-.
  unfold bind, Object_assign_empty, alloc, ret. rewrite Hla. cbn [heap reports].
  rewrite (lookup_app_l_Some _ _ _ _ Hlb).
  cbn [fst snd]. rewrite length_app. cbn [List.length].
  rewrite Nat.add_1_r. by rewrite <- app_assoc.
Qed.

(** * The concrete programs *)

(** In each program the tokens and the nodes own the references that the
    heap was laid out for. *)
Lemma programs_well_numbered :
  wellNumbered FunctionTest.tokenList FunctionTest.nodeList = true /\
  wellNumbered ClassTest.tokenList ClassTest.nodeList = true /\
  wellNumbered BareArrow.tokenList BareArrow.nodeList = true /\
  wellNumbered ArrowProperties.tokenList ArrowProperties.nodeList = true /\
  wellNumbered AsyncArrow.tokenList AsyncArrow.nodeList = true /\
  wellNumbered AnonymousFunction.tokenList AnonymousFunction.nodeList = true /\
  wellNumbered AnonymousArrow.tokenList AnonymousArrow.nodeList = true /\
  wellNumbered AnonymousGenerator.tokenList AnonymousGenerator.nodeList = true.
Proof. repeat split; vm_compute; reflexivity. Qed.

(** The token tables cut the texts where the lexer does. *)
Lemma programs_tokens :
  map Token.value FunctionTest.tokenList
  = ["function"; "test"; "("; "a"; ","; "b"; ","; "c"; ")"; "{"; "}"]
  /\ map Token.value ClassTest.tokenList
     = ["class"; "Test"; "{";
        "constructor"; "("; "a"; ","; "b"; ","; "c"; ")"; "{"; "}";
        "wrongMethod"; "("; "a"; ","; "b"; ","; "c"; ","; "d"; ","; "e"; ")";
        "{"; "}"; "}"]
  /\ map Token.value BareArrow.tokenList = ["x"; "=>"; "x"]
  /\ map Token.value ArrowProperties.tokenList
     = ["("; "{"; "f"; ":"; "x"; "=>"; "x"; ","; "g"; ":"; "("; "y"; ")"; "=>";
        "y"; "}"; ")"]
  /\ map Token.value AsyncArrow.tokenList
     = ["var"; "f"; "="; "async"; "("; "a"; ","; "b"; ")"; "=>"; "{"; "}"; ";"]
  /\ map Token.value AnonymousFunction.tokenList
     = ["var"; "f"; "="; "function"; "("; "a"; ","; "b"; ","; "c"; ","; "d";
        ")"; "{"; "}"; ";"]
  /\ map Token.value AnonymousArrow.tokenList
     = ["var"; "f"; "="; "("; "a"; ","; "b"; ","; "c"; ","; "d"; ")"; "=>";
        "{"; "}"; ";"]
  /\ map Token.value AnonymousGenerator.tokenList
     = ["("; "function"; "*"; "("; ")"; "{"; "}"; ")"; ";"].
Proof. repeat split; vm_compute; reflexivity. Qed.

(** * The host's queries *)

Lemma find_first {A} (f : A -> bool) (l : list A) (x : A) :
  List.find f l = Some x ->
  exists before after,
    l = before ++ x :: after /\ f x = true
    /\ Forall (fun y => f y = false) before.
Proof.
  induction l as [|y l IH]; [discriminate|]. cbn [List.find].
  destruct (f y) eqn:Hy.
  - intros [= ->]. exists [], l. repeat split; [assumption|constructor].
  - intros Hx. destruct (IH Hx) as (before & after & -> & Hfx & Hall).
    exists (y :: before), after. repeat split; [assumption|].
    by constructor.
Qed.

(** What [getTokenAfter] returns is the first token, in the order of the
    file, that starts at or after the end of the range and passes the
    filter. *)
Lemma getTokenAfter_first (sc : SourceCode) (r : nat * nat) (f : Token -> bool)
    (t : Token) :
  getTokenAfter sc r (Some f) = Some t ->
  exists before after,
    tokens sc = before ++ t :: after
    /\ f t = true /\ snd r <= fst (Token.range t)
    /\ Forall (fun t' => snd r <= fst (Token.range t') -> f t' = false) before.
Proof.
  unfold getTokenAfter. intros H.
  destruct (find_first _ _ _ H) as (before & after & Heq & Ht & Hall).
  apply andb_true_iff in Ht as [Hpos Hf]. apply Nat.leb_le in Hpos.
  exists before, after. repeat split; try assumption.
  eapply Forall_impl; [exact Hall|]. cbn. intros t' Ht' Hle.
  apply andb_false_iff in Ht' as [Ht'|Ht']; [|assumption].
  apply Nat.leb_gt in Ht'. lia.
Qed.

(** What [getFirstToken] returns is the first token that lies inside the
    range and passes the filter. *)
Lemma getFirstToken_first (sc : SourceCode) (r : nat * nat) (f : Token -> bool)
    (t : Token) :
  getFirstToken sc r (Some f) = Some t ->
  exists before after,
    tokens sc = before ++ t :: after
    /\ f t = true
    /\ fst r <= fst (Token.range t) /\ snd (Token.range t) <= snd r
    /\ Forall (fun t' => fst r <= fst (Token.range t') ->
                          snd (Token.range t') <= snd r -> f t' = false) before.
Proof.
  unfold getFirstToken. intros H.
  destruct (find_first _ _ _ H) as (before & after & Heq & Ht & Hall).
  apply andb_true_iff in Ht as [Hpos Hf].
  apply andb_true_iff in Hpos as [Hlo Hhi].
  apply Nat.leb_le in Hlo, Hhi.
  exists before, after. repeat split; try assumption.
  eapply Forall_impl; [exact Hall|]. cbn. intros t' Ht' Hle1 Hle2.
  apply andb_false_iff in Ht' as [Ht'|Ht']; [|assumption].
  apply andb_false_iff in Ht' as [Ht'|Ht']; apply Nat.leb_gt in Ht'; lia.
Qed.

(** What [getTokenBefore] returns is the last token that ends at or before
    the start of the range and passes the filter. *)
Lemma getTokenBefore_last (sc : SourceCode) (r : nat * nat)
    (filter : option (Token -> bool)) (t : Token) :
  getTokenBefore sc r filter = Some t ->
  exists before after,
    tokens sc = before ++ t :: after
    /\ accepts filter t = true /\ snd (Token.range t) <= fst r
    /\ Forall (fun t' => snd (Token.range t') <= fst r ->
                          accepts filter t' = false) after.
Proof.
  unfold getTokenBefore. intros H.
  destruct (find_first _ _ _ H) as (l1 & l2 & Heq & Ht & Hall).
  apply andb_true_iff in Ht as [Hpos Hf]. apply Nat.leb_le in Hpos.
  exists (rev l2), (rev l1). repeat split; try assumption.
  - rewrite <- (rev_involutive (tokens sc)), Heq.
    rewrite rev_app_distr. cbn [rev]. by rewrite <- app_assoc.
  - apply Forall_rev.
    eapply Forall_impl; [exact Hall|]. cbn. intros t' Ht' Hle.
    apply andb_false_iff in Ht' as [Ht'|Ht']; [|assumption].
    apply Nat.leb_gt in Ht'. lia.
Qed.

Lemma isOpeningParenToken_spec (t : Token) :
  isOpeningParenToken t = true <->
  Token.value t = "(" /\ Token.type t = "Punctuator".
Proof.
  unfold isOpeningParenToken. rewrite andb_true_iff, !String.eqb_eq. tauto.
Qed.

Lemma isArrowToken_spec (t : Token) :
  isArrowToken t = true <->
  Token.value t = "=>" /\ Token.type t = "Punctuator".
Proof.
  unfold isArrowToken. rewrite andb_true_iff, !String.eqb_eq. tauto.
Qed.

(** * The opening token of the parameters *)

Lemma getOpeningParenOfParams_arrow (node param : ASTNode) (sc : SourceCode)
    (argToken before : Token) (s : State) :
  Node.type node = "ArrowFunctionExpression" ->
  Node.params node = [param] ->
  getFirstToken sc (Node.range param) None = Some argToken ->
  getTokenBefore sc (Token.range argToken) None = Some before ->
  getOpeningParenOfParams node sc s
  = (Normal (Some (if isOpeningParenToken before then before else argToken)), s).
Proof.
  intros Htype Hparams Harg Hbefore.
  unfold getOpeningParenOfParams. rewrite Htype, Hparams. cbn.
  unfold bind. cbn. rewrite Harg. cbn. rewrite Hbefore. reflexivity.
Qed.

Lemma getOpeningParenOfParams_other (node : ASTNode) (sc : SourceCode) (s : State) :
  Node.type node <> "ArrowFunctionExpression"
  \/ List.length (Node.params node) <> 1 ->
  getOpeningParenOfParams node sc s
  = (Normal match Node.id_ node with
            | Some id =>
                getTokenAfter sc (Node.range id) (Some isOpeningParenToken)
            | None =>
                getFirstToken sc (Node.range node) (Some isOpeningParenToken)
            end, s).
Proof.
  intros Hother. unfold getOpeningParenOfParams.
  assert ((Node.type node === "ArrowFunctionExpression")
          && (List.length (Node.params node) =? 1)%nat = false) as ->.
  { apply andb_false_iff. destruct Hother as [H|H].
    - left. by apply String.eqb_neq.
    - right. by apply Nat.eqb_neq. }
  destruct (Node.id_ node); reflexivity.
Qed.

(** C6.  For an arrow function with exactly one parameter,
    [getOpeningParenOfParams] looks at the token that stands immediately
    before the first token of the parameter: it returns the first token of
    the parameter when that token is not an opening parenthesis, and that
    token when it is one.  For any other function-like node it returns the
    first opening parenthesis after the name identifier when the node has
    one, and the first opening parenthesis inside the node otherwise.  In
    every case the state is left as it was.  (A token does stand before the
    parameter wherever the function is called on an arrow: it is not
    exported, and [getFunctionHeadLoc] calls it on an arrow only when the
    parent is a member, after the tokens of the key.) *)
Theorem getOpeningParenOfParams_returns (node : ASTNode) (sc : SourceCode)
    (s : State) :
  (forall param argToken before,
     Node.type node = "ArrowFunctionExpression" ->
     Node.params node = [param] ->
     getFirstToken sc (Node.range param) None = Some argToken ->
     getTokenBefore sc (Token.range argToken) None = Some before ->
     (isOpeningParenToken before = true ->
      getOpeningParenOfParams node sc s = (Normal (Some before), s))
     /\ (isOpeningParenToken before = false ->
         getOpeningParenOfParams node sc s = (Normal (Some argToken), s)))
  /\ (forall id paren,
        Node.type node <> "ArrowFunctionExpression"
        \/ List.length (Node.params node) <> 1 ->
        Node.id_ node = Some id ->
        getTokenAfter sc (Node.range id) (Some isOpeningParenToken) = Some paren ->
        getOpeningParenOfParams node sc s = (Normal (Some paren), s)
        /\ exists before after,
             tokens sc = before ++ paren :: after
             /\ isOpeningParenToken paren = true
             /\ snd (Node.range id) <= fst (Token.range paren)
             /\ Forall (fun t => snd (Node.range id) <= fst (Token.range t) ->
                                 isOpeningParenToken t = false) before)
  /\ (forall paren,
        Node.type node <> "ArrowFunctionExpression"
        \/ List.length (Node.params node) <> 1 ->
        Node.id_ node = None ->
        getFirstToken sc (Node.range node) (Some isOpeningParenToken) = Some paren ->
        getOpeningParenOfParams node sc s = (Normal (Some paren), s)
        /\ exists before after,
             tokens sc = before ++ paren :: after
             /\ isOpeningParenToken paren = true
             /\ fst (Node.range node) <= fst (Token.range paren)
             /\ snd (Token.range paren) <= snd (Node.range node)
             /\ Forall (fun t => fst (Node.range node) <= fst (Token.range t) ->
                                 snd (Token.range t) <= snd (Node.range node) ->
                                 isOpeningParenToken t = false) before).
Proof.
  split; [|split].
  - intros param argToken before Htype Hparams Harg Hbefore.
    pose proof (getOpeningParenOfParams_arrow node param sc argToken before s
                  Htype Hparams Harg Hbefore) as Hrun.
    split; intros Hparen; rewrite Hparen in Hrun; exact Hrun.
  - intros id paren Hother Hid Hafter. split.
    + rewrite (getOpeningParenOfParams_other node sc s Hother), Hid.
      by rewrite Hafter.
    + exact (getTokenAfter_first sc _ _ _ Hafter).
  - intros paren Hother Hid Hfirst. split.
    + rewrite (getOpeningParenOfParams_other node sc s Hother), Hid.
      by rewrite Hfirst.
    + exact (getFirstToken_first sc _ _ _ Hfirst).
Qed.

Lemma getOpeningParenOfParams_returns_witness :
  getOpeningParenOfParams ArrowProperties.f_arrow ArrowProperties.source
    ArrowProperties.state
  = (Normal (Some (tokenAt ArrowProperties.text 4 "Identifier" (6, 7))),
     ArrowProperties.state)
  /\ getOpeningParenOfParams ArrowProperties.g_arrow ArrowProperties.source
       ArrowProperties.state
     = (Normal (Some (tokenAt ArrowProperties.text 10 "Punctuator" (17, 18))),
        ArrowProperties.state)
  /\ getOpeningParenOfParams FunctionTest.test FunctionTest.source
       FunctionTest.state
     = (Normal (Some (tokenAt FunctionTest.text 2 "Punctuator" (13, 14))),
        FunctionTest.state)
  /\ getOpeningParenOfParams AnonymousFunction.function AnonymousFunction.source
       AnonymousFunction.state
     = (Normal (Some (tokenAt AnonymousFunction.text 4 "Punctuator" (16, 17))),
        AnonymousFunction.state).
Proof.
  split; [|split; [|split]].
  - apply (proj1 (getOpeningParenOfParams_returns ArrowProperties.f_arrow
                    ArrowProperties.source ArrowProperties.state)
             ArrowProperties.param_x
             (tokenAt ArrowProperties.text 4 "Identifier" (6, 7))
             (tokenAt ArrowProperties.text 3 "Punctuator" (4, 5)));
      reflexivity.
  - apply (proj1 (getOpeningParenOfParams_returns ArrowProperties.g_arrow
                    ArrowProperties.source ArrowProperties.state)
             ArrowProperties.param_y
             (tokenAt ArrowProperties.text 11 "Identifier" (18, 19))
             (tokenAt ArrowProperties.text 10 "Punctuator" (17, 18)));
      reflexivity.
  - apply (proj1 (proj2 (getOpeningParenOfParams_returns FunctionTest.test
                           FunctionTest.source FunctionTest.state))
             FunctionTest.test_id
             (tokenAt FunctionTest.text 2 "Punctuator" (13, 14)));
      [left; discriminate | reflexivity | reflexivity].
  - apply (proj2 (proj2 (getOpeningParenOfParams_returns
                           AnonymousFunction.function AnonymousFunction.source
                           AnonymousFunction.state))
             (tokenAt AnonymousFunction.text 4 "Punctuator" (16, 17)));
      [left; discriminate | reflexivity | reflexivity].
Defined.

(** * The head location *)

Lemma memberLike_true (parent : ASTNode) :
  memberLike parent ->
  (Node.type parent === "Property")
  || (Node.type parent === "MethodDefinition")
  || (Node.type parent === "PropertyDefinition") = true.
Proof.
  intros [H|[H|H]]; rewrite H; reflexivity.
Qed.

Lemma memberLike_false (parent : ASTNode) :
  ~ memberLike parent ->
  (Node.type parent === "Property")
  || (Node.type parent === "MethodDefinition")
  || (Node.type parent === "PropertyDefinition") = false.
Proof.
  intros H. unfold memberLike in H.
  rewrite !orb_false_iff, !String.eqb_neq. tauto.
Qed.

Lemma selectHeadLoc_member (node parent : ASTNode) (sc : SourceCode)
    (paren : Token) :
  Node.parent node = Some parent ->
  memberLike parent ->
  valueOf (getOpeningParenOfParams node sc) = Normal (Some paren) ->
  valueOf (selectHeadLoc node sc)
  = Normal (start (Node.loc parent), start (Token.loc paren)).
Proof.
  intros Hparent Hmember Hparen.
  unfold selectHeadLoc. rewrite Hparent.
  rewrite valueOf_bind by apply stateless_deref.
  cbn [valueOf deref ret fst]. rewrite (memberLike_true parent Hmember).
  rewrite valueOf_bind by apply getOpeningParenOfParams_stateless.
  rewrite Hparen. reflexivity.
Qed.

Lemma selectHeadLoc_function (node parent : ASTNode) (sc : SourceCode)
    (paren : Token) :
  Node.parent node = Some parent ->
  ~ memberLike parent ->
  Node.type node <> "ArrowFunctionExpression" ->
  valueOf (getOpeningParenOfParams node sc) = Normal (Some paren) ->
  valueOf (selectHeadLoc node sc)
  = Normal (start (Node.loc node), start (Token.loc paren)).
Proof.
  intros Hparent Hmember Harrow Hparen.
  unfold selectHeadLoc. rewrite Hparent.
  rewrite valueOf_bind by apply stateless_deref.
  cbn [valueOf deref ret fst]. rewrite (memberLike_false parent Hmember).
  apply String.eqb_neq in Harrow. rewrite Harrow.
  rewrite valueOf_bind by apply getOpeningParenOfParams_stateless.
  rewrite Hparen. reflexivity.
Qed.

Lemma selectHeadLoc_arrow (node parent body : ASTNode) (sc : SourceCode)
    (arrowToken : Token) :
  Node.parent node = Some parent ->
  ~ memberLike parent ->
  Node.type node = "ArrowFunctionExpression" ->
  Node.body node = Some body ->
  getTokenBefore sc (Node.range body) (Some isArrowToken) = Some arrowToken ->
  valueOf (selectHeadLoc node sc)
  = Normal (start (Token.loc arrowToken), end_ (Token.loc arrowToken)).
Proof.
  intros Hparent Hmember Harrow Hbody Htoken.
  unfold selectHeadLoc. rewrite Hparent.
  rewrite valueOf_bind by apply stateless_deref.
  cbn [valueOf deref ret fst]. rewrite (memberLike_false parent Hmember).
  rewrite Harrow, Hbody. cbn [String.eqb Ascii.eqb Bool.eqb andb deref].
  unfold bind, ret. rewrite Htoken. reflexivity.
Qed.

Lemma valueOf_run {A} (m : M A) (a : completion A) (s : State) :
  stateless m -> m s = (a, s) -> valueOf m = a.
Proof. intros Hm Hrun. rewrite (Hm s) in Hrun. congruence. Qed.

(** The copies that [getFunctionHeadLoc] returns read as the positions it
    selected, and nothing that was in the heap has changed. *)
Lemma getFunctionHeadLoc_reads (node : ASTNode) (sc : SourceCode) (s : State)
    (a b : ref) (pa pb : nat * nat) :
  valueOf (selectHeadLoc node sc) = Normal (a, b) ->
  readPosition s a = Some pa ->
  readPosition s b = Some pb ->
  exists span s',
    getFunctionHeadLoc node sc s = (Normal span, s')
    /\ readLoc s' span = Some (pa, pb)
    /\ List.length (heap s) <= start span
    /\ List.length (heap s) <= end_ span
    /\ preserves s s'.
Proof.
  intros Hsel Ha Hb.
  eexists _, _. split; [exact (getFunctionHeadLoc_copies _ _ _ _ _ _ _ Hsel Ha Hb)|].
  cbn [start end_ heap reports]. repeat split; try lia.
  - unfold readLoc, readPosition. cbn [start end_ heap].
    rewrite !lookup_app_r by lia.
    rewrite Nat.sub_diag.
    replace (S (List.length (heap s)) - List.length (heap s)) with 1 by lia.
    cbn. by destruct pa, pb.
  - eexists. reflexivity.
Qed.

(** C4.  For a function whose parent is a Property, a MethodDefinition or a
    PropertyDefinition, [getFunctionHeadLoc] returns a span that starts at
    the start of the parent and ends at the start of the token that
    [getOpeningParenOfParams] returns; for a function that is neither a member
    nor an arrow, the span starts at the start of the node itself and ends at
    the start of the same token.  For [function test(a, b, c) { ... }] with
    [func: 2] the one report has the span from line 1, column 0 to line 1,
    column 13, which the host shows as columns 1 to 14: the text
    [function test], which ends before the body begins. *)
Theorem getFunctionHeadLoc_head (node parent : ASTNode) (sc : SourceCode)
    (s : State) (paren : Token) (from to : nat * nat) :
  Node.parent node = Some parent ->
  getOpeningParenOfParams node sc s = (Normal (Some paren), s) ->
  readPosition s (start (Token.loc paren)) = Some to ->
  (memberLike parent ->
   readPosition s (start (Node.loc parent)) = Some from ->
   exists span s',
     getFunctionHeadLoc node sc s = (Normal span, s')
     /\ readLoc s' span = Some (from, to))
  /\ (~ memberLike parent ->
      Node.type node <> "ArrowFunctionExpression" ->
      readPosition s (start (Node.loc node)) = Some from ->
      exists span s',
        getFunctionHeadLoc node sc s = (Normal span, s')
        /\ readLoc s' span = Some (from, to))
  /\ (exists descriptor s',
        runRule (contextOf FunctionTest.source (Some 2) None)
          FunctionTest.visited FunctionTest.state
        = (Normal tt, s')
        /\ reports s' = [descriptor]
        /\ Report.node descriptor = FunctionTest.test
        /\ readLoc s' (Report.loc descriptor) = Some ((1, 0), (1, 13))
        /\ reportedColumn 0 = 1 /\ reportedColumn 13 = 14
        /\ positionAt FunctionTest.text 0 1 0 = PositionObject 1 0
        /\ positionAt FunctionTest.text 13 1 0 = PositionObject 1 13
        /\ substring 0 13 FunctionTest.text = "function test"
        /\ Node.body FunctionTest.test = Some FunctionTest.block
        /\ 13 <= fst (Node.range FunctionTest.block)).
Proof.
  intros Hparent Hparen Hto.
  apply (valueOf_run _ _ _ (getOpeningParenOfParams_stateless node sc)) in Hparen.
  split; [|split].
  - intros Hmember Hfrom.
    destruct (getFunctionHeadLoc_reads node sc s _ _ from to
                (selectHeadLoc_member _ _ _ _ Hparent Hmember Hparen) Hfrom Hto)
      as (span & s' & Hrun & Hread & _).
    by exists span, s'.
  - intros Hmember Harrow Hfrom.
    destruct (getFunctionHeadLoc_reads node sc s _ _ from to
                (selectHeadLoc_function _ _ _ _ Hparent Hmember Harrow Hparen)
                Hfrom Hto)
      as (span & s' & Hrun & Hread & _).
    by exists span, s'.
  - destruct (runRule (contextOf FunctionTest.source (Some 2) None)
                FunctionTest.visited FunctionTest.state) as [c s'] eqn:Hrun.
    vm_compute in Hrun. injection Hrun as <- <-.
    eexists _, _. split; [reflexivity|].
    cbn [reports]. split; [reflexivity|].
    repeat split; try reflexivity. cbn. lia.
Qed.

Lemma getFunctionHeadLoc_head_witness :
  (exists span s',
     getFunctionHeadLoc ClassTest.wrongMethodFunction ClassTest.source
       ClassTest.state
     = (Normal span, s')
     /\ readLoc s' span = Some ((3, 2), (3, 13)))
  /\ (exists span s',
        getFunctionHeadLoc FunctionTest.test FunctionTest.source
          FunctionTest.state
        = (Normal span, s')
        /\ readLoc s' span = Some ((1, 0), (1, 13))).
Proof.
  split.
  - apply (proj1 (getFunctionHeadLoc_head ClassTest.wrongMethodFunction
                    ClassTest.wrongMethodDefinition ClassTest.source
                    ClassTest.state
                    (tokenAt ClassTest.text 14 "Punctuator" (52, 53))
                    (3, 2) (3, 13) eq_refl eq_refl eq_refl)).
    + right; left; reflexivity.
    + reflexivity.
  - apply (proj1 (proj2 (getFunctionHeadLoc_head FunctionTest.test
                           FunctionTest.program FunctionTest.source
                           FunctionTest.state
                           (tokenAt FunctionTest.text 2 "Punctuator" (13, 14))
                           (1, 0) (1, 13) eq_refl eq_refl eq_refl))).
    + intros [H|[H|H]]; discriminate H.
    + discriminate.
    + reflexivity.
Defined.

(** C5.  For an arrow function whose parent is not a member-like node,
    [getFunctionHeadLoc] returns a span whose start and end are the start and
    the end of the arrow token [=>] that stands before the body: the last
    token before the body that is a punctuator with the value [=>]. *)
Theorem getFunctionHeadLoc_arrow (node parent body : ASTNode) (sc : SourceCode)
    (s : State) (arrowToken : Token) (from to : nat * nat) :
  Node.parent node = Some parent ->
  ~ memberLike parent ->
  Node.type node = "ArrowFunctionExpression" ->
  Node.body node = Some body ->
  getTokenBefore sc (Node.range body) (Some isArrowToken) = Some arrowToken ->
  readPosition s (start (Token.loc arrowToken)) = Some from ->
  readPosition s (end_ (Token.loc arrowToken)) = Some to ->
  (exists span s',
     getFunctionHeadLoc node sc s = (Normal span, s')
     /\ readLoc s' span = Some (from, to))
  /\ Token.value arrowToken = "=>"
  /\ Token.type arrowToken = "Punctuator"
  /\ exists before after,
       tokens sc = before ++ arrowToken :: after
       /\ snd (Token.range arrowToken) <= fst (Node.range body)
       /\ Forall (fun t => snd (Token.range t) <= fst (Node.range body) ->
                           isArrowToken t = false) after.
Proof.
  intros Hparent Hmember Harrow Hbody Htoken Hfrom Hto.
  destruct (getTokenBefore_last sc _ _ _ Htoken)
    as (before & after & Htokens & Hfilter & Hpos & Hlast).
  cbn [accepts] in Hfilter. apply isArrowToken_spec in Hfilter as [Hvalue Htype].
  split; [|split; [exact Hvalue|split; [exact Htype|]]].
  - destruct (getFunctionHeadLoc_reads node sc s _ _ from to
                (selectHeadLoc_arrow _ _ _ _ _ Hparent Hmember Harrow Hbody Htoken)
                Hfrom Hto)
      as (span & s' & Hrun & Hread & _).
    by exists span, s'.
  - by exists before, after.
Qed.

Lemma getFunctionHeadLoc_arrow_witness :
  (exists span s',
     getFunctionHeadLoc AsyncArrow.arrow AsyncArrow.source AsyncArrow.state
     = (Normal span, s')
     /\ readLoc s' span = Some ((1, 21), (1, 23)))
  /\ substring 21 2 AsyncArrow.text = "=>"
  /\ substring 8 13 AsyncArrow.text = "async (a, b) ".
Proof.
  split; [|split; reflexivity].
  apply (proj1 (getFunctionHeadLoc_arrow AsyncArrow.arrow AsyncArrow.declarator
                  AsyncArrow.block AsyncArrow.source AsyncArrow.state
                  (tokenAt AsyncArrow.text 9 "Punctuator" (21, 23))
                  (1, 21) (1, 23) eq_refl
                  ltac:(intros [H|[H|H]]; discriminate H)
                  eq_refl eq_refl eq_refl eq_refl eq_refl)).
Defined.

(** * The labeler *)

Lemma getFunctionNameWithKind_value (node : ASTNode) (s : State) :
  fst (getFunctionNameWithKind node s) = valueOf (getFunctionNameWithKind node).
Proof. by rewrite getFunctionNameWithKind_frame. Qed.

Lemma getFunctionNameWithKind_preserves (node : ASTNode) (s : State) :
  preserves s (snd (getFunctionNameWithKind node s)).
Proof.
  rewrite getFunctionNameWithKind_frame. split; [reflexivity|].
  eexists. reflexivity.
Qed.

Ltac unfold_labeler :=
  unfold valueOf, getFunctionNameWithKind, pushName, hasPrivateKey, emptyState;
  unfold bind, when, deref, newArray, alloc, ret, throw.

(** The label of a function that is not a member: the words [async],
    [generator] and [arrow] where they apply, [function], then the quoted
    name of the function when it has one. *)
Lemma getFunctionNameWithKind_function (node parent : ASTNode) :
  Node.parent node = Some parent ->
  ~ memberLike parent ->
  valueOf (getFunctionNameWithKind node)
  = Normal (String.concat " "
      ((if Node.async node then ["async"] else [])
       ++ (if Node.generator node then ["generator"] else [])
       ++ (if Node.type node === "ArrowFunctionExpression" then ["arrow"] else [])
       ++ ["function"]
       ++ match Node.id_ node with
          | Some id => ["'" +:+ Node.name id +:+ "'"]
          | None => []
          end)).
Proof.
  intros Hparent Hmember. pose proof (memberLike_false parent Hmember) as Hfalse.
  apply orb_false_iff in Hfalse as [Hfalse HPD].
  apply orb_false_iff in Hfalse as [HP HMD].
  unfold_labeler. rewrite Hparent. cbn.
  rewrite HP, HMD, HPD. cbn.
  destruct (Node.async node), (Node.generator node),
    (Node.type node === "ArrowFunctionExpression"), (Node.id_ node);
    run; reflexivity.
Qed.

(** C7.  When the parent of a function node is a Property or a
    MethodDefinition whose [kind] is ["constructor"], the label is exactly
    ["constructor"]: whatever [static], [private], [async] or [generator]
    words were gathered before are dropped, and no name follows. *)
Theorem getFunctionNameWithKind_constructor (node parent : ASTNode) (s : State) :
  Node.parent node = Some parent ->
  Node.type parent = "Property" \/ Node.type parent = "MethodDefinition" ->
  Node.kind parent = Some "constructor" ->
  is_Some (Node.key parent) ->
  fst (getFunctionNameWithKind node s) = Normal "constructor".
Proof.
  intros Hparent Htype Hkind [key Hkey].
  rewrite getFunctionNameWithKind_value.
  unfold_labeler. rewrite Hparent. cbn. rewrite Hkey, Hkind.
  destruct Htype as [-> | ->]; cbn;
    destruct (Node.static parent), (Node.computed parent),
      (Node.type key === "PrivateIdentifier"),
      (Node.async node), (Node.generator node);
    run; reflexivity.
Qed.

Lemma getFunctionNameWithKind_constructor_witness :
  fst (getFunctionNameWithKind ClassTest.constructorFunction ClassTest.state)
  = Normal "constructor".
Proof.
  apply (getFunctionNameWithKind_constructor ClassTest.constructorFunction
           ClassTest.constructorDefinition ClassTest.state eq_refl).
  - right. reflexivity.
  - reflexivity.
  - exists ClassTest.constructor_key. reflexivity.
Defined.

(** C8 (as amended).  A function that is not a member, is not an arrow and is
    neither [async] nor a generator has the label [function] when it has no
    name and [function 'name'] when it has one; an arrow function under the
    same conditions has the label [arrow function].  With the first letter in
    upper case, as the rule reports it: [Function 'test'] for
    [function test(a, b, c) {}], [Function] for
    [var f = function(a, b, c, d) {};] and [Arrow function] for
    [var f = (a, b, c, d) => {};]. *)
Theorem getFunctionNameWithKind_plain_function (node parent : ASTNode)
    (s : State) :
  Node.parent node = Some parent ->
  ~ memberLike parent ->
  Node.async node = false ->
  Node.generator node = false ->
  (Node.type node <> "ArrowFunctionExpression" ->
   Node.id_ node = None ->
   fst (getFunctionNameWithKind node s) = Normal "function")
  /\ (forall id,
        Node.type node <> "ArrowFunctionExpression" ->
        Node.id_ node = Some id ->
        fst (getFunctionNameWithKind node s)
        = Normal ("function '" +:+ Node.name id +:+ "'"))
  /\ (Node.type node = "ArrowFunctionExpression" ->
      Node.id_ node = None ->
      fst (getFunctionNameWithKind node s) = Normal "arrow function")
  /\ (fst (getFunctionNameWithKind FunctionTest.test FunctionTest.state)
      = Normal "function 'test'"
      /\ upperCaseFirst "function 'test'" = "Function 'test'")
  /\ (fst (getFunctionNameWithKind AnonymousFunction.function
             AnonymousFunction.state)
      = Normal "function"
      /\ upperCaseFirst "function" = "Function")
  /\ (fst (getFunctionNameWithKind AnonymousArrow.arrow AnonymousArrow.state)
      = Normal "arrow function"
      /\ upperCaseFirst "arrow function" = "Arrow function")
  /\ map (fun r => Data.name (Report.data r))
       (reports (snd (runRule (contextOf FunctionTest.source (Some 2) None)
                        FunctionTest.visited FunctionTest.state)))
     = ["Function 'test'"]
  /\ map (fun r => Data.name (Report.data r))
       (reports (snd (runRule (contextOf AnonymousFunction.source (Some 3) None)
                        AnonymousFunction.visited AnonymousFunction.state)))
     = ["Function"]
  /\ map (fun r => Data.name (Report.data r))
       (reports (snd (runRule (contextOf AnonymousArrow.source (Some 3) None)
                        AnonymousArrow.visited AnonymousArrow.state)))
     = ["Arrow function"].
Proof.
  intros Hparent Hmember Hasync Hgenerator.
  pose proof (getFunctionNameWithKind_function node parent Hparent Hmember) as Hlabel.
  rewrite Hasync, Hgenerator in Hlabel.
  split; [|split; [|split]].
  - intros Htype Hid. rewrite getFunctionNameWithKind_value, Hlabel, Hid.
    apply String.eqb_neq in Htype. by rewrite Htype.
  - intros id Htype Hid. rewrite getFunctionNameWithKind_value, Hlabel, Hid.
    apply String.eqb_neq in Htype. rewrite Htype. reflexivity.
  - intros Htype Hid. rewrite getFunctionNameWithKind_value, Hlabel, Hid, Htype.
    reflexivity.
  - repeat split; vm_compute; reflexivity.
Qed.

Lemma getFunctionNameWithKind_plain_function_witness :
  fst (getFunctionNameWithKind AnonymousFunction.function AnonymousFunction.state)
  = Normal "function"
  /\ fst (getFunctionNameWithKind FunctionTest.test FunctionTest.state)
     = Normal ("function '" +:+ "test" +:+ "'")
  /\ fst (getFunctionNameWithKind AnonymousArrow.arrow AnonymousArrow.state)
     = Normal "arrow function".
Proof.
  split; [|split].
  - apply (proj1 (getFunctionNameWithKind_plain_function
                    AnonymousFunction.function AnonymousFunction.declarator
                    AnonymousFunction.state eq_refl
                    ltac:(intros [H|[H|H]]; discriminate H) eq_refl eq_refl));
      [discriminate | reflexivity].
  - apply (proj1 (proj2 (getFunctionNameWithKind_plain_function
                           FunctionTest.test FunctionTest.program
                           FunctionTest.state eq_refl
                           ltac:(intros [H|[H|H]]; discriminate H)
                           eq_refl eq_refl))
             FunctionTest.test_id);
      [discriminate | reflexivity].
  - apply (proj1 (proj2 (proj2 (getFunctionNameWithKind_plain_function
                                  AnonymousArrow.arrow AnonymousArrow.declarator
                                  AnonymousArrow.state eq_refl
                                  ltac:(intros [H|[H|H]]; discriminate H)
                                  eq_refl eq_refl))));
      reflexivity.
Defined.

(** C8 (counterexample).  [(function*() {})] is an unnamed function that is
    not a member, and its label is not the bare [function]. *)
Lemma getFunctionNameWithKind_unnamed_generator :
  Node.parent AnonymousGenerator.function = Some AnonymousGenerator.statement
  /\ ~ memberLike AnonymousGenerator.statement
  /\ Node.type AnonymousGenerator.function = "FunctionExpression"
  /\ Node.id_ AnonymousGenerator.function = None
  /\ fst (getFunctionNameWithKind AnonymousGenerator.function
            AnonymousGenerator.state)
     = Normal "generator function"
  /\ fst (getFunctionNameWithKind AnonymousGenerator.function
            AnonymousGenerator.state)
     <> Normal "function".
Proof.
  repeat split; try reflexivity.
  - intros [H|[H|H]]; discriminate H.
  - rewrite getFunctionNameWithKind_value. vm_compute. discriminate.
Qed.

(** * Static string values *)

(** C9 (as amended).  For a Literal node [getStaticStringValue] always returns
    a string: the string form of the value when the value is not [null]; for
    a [null] value, ["null"] when the node has neither [regex] nor a non-empty
    [bigint], the text [/pattern/flags] when it has [regex], and the [bigint]
    text otherwise.  For a TemplateLiteral with no expression and exactly one
    quasi it returns the cooked text of that quasi.  For every other node it
    returns [null]. *)
Theorem getStaticStringValue_cases (node : ASTNode) :
  (Node.type node = "Literal" ->
   (Node.value node <> JSNull ->
    getStaticStringValue node = Some (String_ (Node.value node)))
   /\ (Node.value node = JSNull -> Node.regex node = None ->
       truthyString (Node.bigint node) = false ->
       getStaticStringValue node = Some "null")
   /\ (forall r, Node.value node = JSNull -> Node.regex node = Some r ->
       getStaticStringValue node
       = Some ("/" +:+ pattern r +:+ "/" +:+ flags r))
   /\ (forall digits, Node.value node = JSNull -> Node.regex node = None ->
       Node.bigint node = Some digits -> digits <> "" ->
       getStaticStringValue node = Some digits)
   /\ is_Some (getStaticStringValue node))
  /\ (forall quasi,
        Node.type node = "TemplateLiteral" ->
        Node.expressions node = [] ->
        Node.quasis node = [quasi] ->
        getStaticStringValue node = cooked quasi)
  /\ (Node.type node = "TemplateLiteral" ->
      Node.expressions node <> [] \/ List.length (Node.quasis node) <> 1 ->
      getStaticStringValue node = None)
  /\ (Node.type node <> "Literal" ->
      Node.type node <> "TemplateLiteral" ->
      getStaticStringValue node = None).
Proof.
  unfold getStaticStringValue, isNullLiteral.
  split; [|split; [|split]].
  - intros ->. cbn [String.eqb Ascii.eqb Bool.eqb andb].
    split; [|split; [|split; [|split]]].
    + intros Hvalue. by destruct (Node.value node).
    + intros -> -> ->. reflexivity.
    + intros r -> ->. reflexivity.
    + intros digits -> -> -> Hdigits. cbn.
      apply String.eqb_neq in Hdigits. by rewrite Hdigits.
    + destruct (Node.value node); cbn; try by eexists.
      destruct (Node.regex node); cbn; [by eexists|].
      destruct (Node.bigint node) as [digits|]; cbn; [|by eexists].
      destruct (digits === ""); cbn; by eexists.
  - intros quasi -> Hexpressions Hquasis. cbn.
    rewrite Hexpressions, Hquasis. reflexivity.
  - intros -> Hshape. cbn.
    destruct (Node.expressions node) as [|e es]; cbn; [|reflexivity].
    destruct Hshape as [Hshape|Hshape]; [congruence|].
    apply Nat.eqb_neq in Hshape. by rewrite Hshape.
  - intros Hliteral Htemplate.
    apply String.eqb_neq in Hliteral, Htemplate.
    by rewrite Hliteral, Htemplate.
Qed.

Lemma getStaticStringValue_cases_witness :
  getStaticStringValue (literalNode (JSNumber 100) None None) = Some "100"
  /\ getStaticStringValue (literalNode JSNull None None) = Some "null"
  /\ getStaticStringValue
       (literalNode JSNull (Some {| pattern := "a"; flags := "u" |}) None)
     = Some "/a/u"
  /\ getStaticStringValue (literalNode JSNull None (Some "100")) = Some "100"
  /\ getStaticStringValue
       (templateNode [ {| cooked := Some "b"; raw := "b" |} ] [])
     = Some "b"
  /\ getStaticStringValue
       (templateNode [ {| cooked := Some ""; raw := "" |};
                       {| cooked := Some ""; raw := "" |} ]
          [identifierNode "Identifier" 0 (0, 0) "b"])
     = None
  /\ getStaticStringValue (identifierNode "Identifier" 0 (0, 0) "b") = None.
Proof.
  split; [|split; [|split; [|split; [|split; [|split]]]]].
  - apply (proj1 (proj1 (getStaticStringValue_cases
                           (literalNode (JSNumber 100) None None)) eq_refl)).
    discriminate.
  - apply (proj1 (proj2 (proj1 (getStaticStringValue_cases
                                  (literalNode JSNull None None)) eq_refl)));
      reflexivity.
  - apply (proj1 (proj2 (proj2 (proj1 (getStaticStringValue_cases
             (literalNode JSNull (Some {| pattern := "a"; flags := "u" |}) None))
             eq_refl)))
             {| pattern := "a"; flags := "u" |});
      reflexivity.
  - apply (proj1 (proj2 (proj2 (proj2 (proj1 (getStaticStringValue_cases
             (literalNode JSNull None (Some "100"))) eq_refl))))
             "100");
      [reflexivity | reflexivity | reflexivity | discriminate].
  - apply (proj1 (proj2 (getStaticStringValue_cases
             (templateNode [ {| cooked := Some "b"; raw := "b" |} ] [])))
             {| cooked := Some "b"; raw := "b" |});
      reflexivity.
  - apply (proj1 (proj2 (proj2 (getStaticStringValue_cases
             (templateNode [ {| cooked := Some ""; raw := "" |};
                             {| cooked := Some ""; raw := "" |} ]
                [identifierNode "Identifier" 0 (0, 0) "b"])))));
      [reflexivity | left; discriminate].
  - apply (proj2 (proj2 (proj2 (getStaticStringValue_cases
             (identifierNode "Identifier" 0 (0, 0) "b")))));
      discriminate.
Defined.

(** C9 (counterexample).  A regex literal whose value the environment cannot
    represent has the value [null] and is not a [null] literal; for it
    [getStaticStringValue] returns a string, not [null]. *)
Lemma getStaticStringValue_unrepresentable_literal :
  Node.type (literalNode JSNull (Some {| pattern := "a"; flags := "u" |}) None)
  = "Literal"
  /\ Node.value (literalNode JSNull (Some {| pattern := "a"; flags := "u" |}) None)
     = JSNull
  /\ isNullLiteral
       (literalNode JSNull (Some {| pattern := "a"; flags := "u" |}) None)
     = false
  /\ getStaticStringValue
       (literalNode JSNull (Some {| pattern := "a"; flags := "u" |}) None)
     = Some "/a/u"
  /\ getStaticStringValue
       (literalNode JSNull (Some {| pattern := "a"; flags := "u" |}) None)
     <> None.
Proof. repeat split; discriminate. Qed.

(** * The rule *)

Lemma Object_assign_empty_preserves (source : ref) (s : State)
    (c : completion ref) (s' : State) :
  Object_assign_empty source s = (c, s') -> preserves s s'.
Proof.
  unfold Object_assign_empty, alloc.
  destruct (heap s !! source) as [[l col|items]|]; intros [= <- <-];
    try apply preserves_refl.
  split; [reflexivity|]. eexists. reflexivity.
Qed.

(** Whatever [getFunctionHeadLoc] does, it leaves every object of the heap
    as it was and reports nothing. *)
Lemma getFunctionHeadLoc_preserves (node : ASTNode) (sc : SourceCode)
    (s : State) (c : completion SourceLocation) (s' : State) :
  getFunctionHeadLoc node sc s = (c, s') -> preserves s s'.
Proof.
  unfold getFunctionHeadLoc. unfold bind at 1.
  rewrite (selectHeadLoc_stateless node sc s).
  destruct (valueOf (selectHeadLoc node sc)) as [[a b]|e].
  - cbn [fst snd]. unfold bind.
    destruct (Object_assign_empty a s) as [[a'|e] s1] eqn:Ha.
    + destruct (Object_assign_empty b s1) as [[b'|e] s2] eqn:Hb;
        intros [= <- <-];
        exact (preserves_trans _ _ _ (Object_assign_empty_preserves _ _ _ _ Ha)
                 (Object_assign_empty_preserves _ _ _ _ Hb)).
    + intros [= <- <-]. exact (Object_assign_empty_preserves _ _ _ _ Ha).
  - intros [= <- <-]. apply preserves_refl.
Qed.

(** What [checkFunction] does once the label of the node is known: it
    compares the number of parameters with the limit of the category of the
    label, and reports, with the head location, when the number is greater. *)
Lemma checkFunction_run (context : RuleContext) (node : ASTNode) (s : State)
    (name : string) :
  fst (getFunctionNameWithKind node s) = Normal name ->
  let s1 := snd (getFunctionNameWithKind node s) in
  let limit := if name === "constructor" then constructorNumParams context
               else funcNumParams context in
  checkFunction context node s
  = if greaterThan (List.length (Node.params node)) limit
    then
      match getFunctionHeadLoc node (sourceCode context) s1 with
      | (Normal loc, s2) =>
          (Normal tt,
           {| heap := heap s2;
              reports := reports s2
                ++ [ {| Report.loc := loc;
                        Report.node := node;
                        Report.messageId := "exceed";
                        Report.data :=
                          {| Data.name := upperCaseFirst name;
                             Data.count := List.length (Node.params node);
                             Data.max := limit |} |} ] |})
      | (Throw e, s2) => (Throw e, s2)
      end
    else (Normal tt, s1).
Proof.
  intros Hname. cbv zeta. unfold checkFunction. unfold bind at 1.
  destruct (getFunctionNameWithKind node s) as [c s1]. cbn [fst snd] in *.
  subst c.
  destruct (name === "constructor");
    destruct (greaterThan _ _); cbn [when]; try reflexivity;
    unfold buildError, bind, context_report, ret;
    destruct (getFunctionHeadLoc node (sourceCode context) s1) as [[loc|e] s2];
    reflexivity.
Qed.

(** With a limit of at least 1 for the category of the node, a violation is
    reported exactly when the node has more parameters than the limit. *)
Lemma checkFunction_reports_iff (context : RuleContext) (node : ASTNode)
    (s : State) (name : string) (limit : nat) (loc : SourceLocation)
    (s2 : State) :
  fst (getFunctionNameWithKind node s) = Normal name ->
  (if name === "constructor" then constructorNumParams context
   else funcNumParams context) = Some limit ->
  getFunctionHeadLoc node (sourceCode context)
    (snd (getFunctionNameWithKind node s)) = (Normal loc, s2) ->
  (limit < List.length (Node.params node) ->
   exists descriptor,
     reports (snd (checkFunction context node s)) = reports s ++ [descriptor]
     /\ Report.node descriptor = node
     /\ Report.data descriptor
        = {| Data.name := upperCaseFirst name;
             Data.count := List.length (Node.params node);
             Data.max := Some limit |})
  /\ (List.length (Node.params node) <= limit ->
      reports (snd (checkFunction context node s)) = reports s).
Proof.
  intros Hname Hlimit Hloc.
  rewrite (checkFunction_run context node s name Hname). cbv zeta.
  rewrite Hlimit, Hloc. cbn [greaterThan].
  pose proof (getFunctionNameWithKind_preserves node s) as [Hreports _].
  split.
  - intros Hgt. apply Nat.ltb_lt in Hgt. rewrite Hgt. cbn [snd reports].
    assert (reports s2 = reports s) as ->.
    { rewrite <- Hreports.
      exact (proj1 (getFunctionHeadLoc_preserves _ _ _ _ _ Hloc)). }
    eexists. split; [reflexivity|]. split; reflexivity.
  - intros Hle. apply Nat.ltb_ge in Hle. rewrite Hle. cbn [snd].
    exact Hreports.
Qed.

(** C1 (the input on which the rule fails).  With [func: 0] the limit that
    applies to [function test(a, b, c) {}] is 0 and the function has 3
    parameters, yet the rule runs to its end without a report; with [func: 2]
    it reports. *)
Theorem checkFunction_zero_limit_unreported :
  func (mkOptions (Some 0) None) = Some 0
  /\ fst (getFunctionNameWithKind FunctionTest.test FunctionTest.state)
     = Normal "function 'test'"
  /\ 0 < List.length (Node.params FunctionTest.test)
  /\ fst (runRule (contextOf FunctionTest.source (Some 0) None)
            FunctionTest.visited FunctionTest.state)
     = Normal tt
  /\ reports (snd (runRule (contextOf FunctionTest.source (Some 0) None)
                     FunctionTest.visited FunctionTest.state))
     = []
  /\ List.length
       (reports (snd (runRule (contextOf FunctionTest.source (Some 2) None)
                        FunctionTest.visited FunctionTest.state)))
     = 1.
Proof.
  repeat split; try (vm_compute; reflexivity). cbn. lia.
Qed.

(** C2.  A limit of 0 is read as no limit: with [func: 0] the rule does, on
    every node and every state, what it does when [func] is absent, and a
    node whose label is not [constructor] is never reported; likewise with
    [constructor: 0] for the nodes whose label is [constructor]. *)
Theorem checkFunction_zero_limit (sc : SourceCode) (other : option nat)
    (rest : list RuleOptions) (node : ASTNode) (s : State) :
  checkFunction (mkContext sc (mkOptions (Some 0) other :: rest)) node s
  = checkFunction (mkContext sc (mkOptions None other :: rest)) node s
  /\ checkFunction (mkContext sc (mkOptions other (Some 0) :: rest)) node s
     = checkFunction (mkContext sc (mkOptions other None :: rest)) node s
  /\ (forall name,
        fst (getFunctionNameWithKind node s) = Normal name ->
        name <> "constructor" ->
        checkFunction (mkContext sc (mkOptions (Some 0) other :: rest)) node s
        = (Normal tt, snd (getFunctionNameWithKind node s))
        /\ reports (snd (getFunctionNameWithKind node s)) = reports s)
  /\ (fst (getFunctionNameWithKind node s) = Normal "constructor" ->
      checkFunction (mkContext sc (mkOptions other (Some 0) :: rest)) node s
      = (Normal tt, snd (getFunctionNameWithKind node s))
      /\ reports (snd (getFunctionNameWithKind node s)) = reports s).
Proof.
  pose proof (getFunctionNameWithKind_preserves node s) as [Hreports _].
  split; [reflexivity|split; [reflexivity|split]].
  - intros name Hname Hother. split; [|exact Hreports].
    rewrite (checkFunction_run _ node s name Hname). cbv zeta.
    apply String.eqb_neq in Hother. rewrite Hother. reflexivity.
  - intros Hname. split; [|exact Hreports].
    rewrite (checkFunction_run _ node s _ Hname). reflexivity.
Qed.

Lemma checkFunction_zero_limit_witness :
  (checkFunction (contextOf FunctionTest.source (Some 0) None)
     FunctionTest.test FunctionTest.state
   = (Normal tt,
      snd (getFunctionNameWithKind FunctionTest.test FunctionTest.state))
   /\ reports (snd (getFunctionNameWithKind FunctionTest.test FunctionTest.state))
      = reports FunctionTest.state)
  /\ (checkFunction (contextOf ClassTest.source (Some 2) (Some 0))
        ClassTest.constructorFunction ClassTest.state
      = (Normal tt,
         snd (getFunctionNameWithKind ClassTest.constructorFunction
                ClassTest.state))
      /\ reports (snd (getFunctionNameWithKind ClassTest.constructorFunction
                         ClassTest.state))
         = reports ClassTest.state).
Proof.
  split.
  - apply (proj1 (proj2 (proj2 (checkFunction_zero_limit FunctionTest.source
                                  None [] FunctionTest.test FunctionTest.state)))
             "function 'test'").
    + vm_compute. reflexivity.
    + discriminate.
  - apply (proj2 (proj2 (proj2 (checkFunction_zero_limit ClassTest.source
                                  (Some 2) [] ClassTest.constructorFunction
                                  ClassTest.state)))).
    vm_compute. reflexivity.
Defined.

(** C3.  With [{ func: 2, constructor: 3 }] the class with
    [constructor(a, b, c)] and [wrongMethod(a, b, c, d, e)] gets exactly one
    report: on the function of [wrongMethod], with the name
    [Method 'wrongMethod'], the count 5 and the maximum 2.  The constructor,
    whose label is [constructor], has 3 parameters for a limit of 3 and is
    not reported. *)
Theorem runRule_class_scenario :
  exists descriptor final,
    runRule (contextOf ClassTest.source (Some 2) (Some 3))
      ClassTest.visited ClassTest.state
    = (Normal tt, final)
    /\ reports final = [descriptor]
    /\ Report.node descriptor = ClassTest.wrongMethodFunction
    /\ Report.messageId descriptor = "exceed"
    /\ Report.data descriptor
       = {| Data.name := "Method 'wrongMethod'";
            Data.count := 5;
            Data.max := Some 2 |}
    /\ fst (getFunctionNameWithKind ClassTest.constructorFunction ClassTest.state)
       = Normal "constructor"
    /\ List.length (Node.params ClassTest.constructorFunction) = 3
    /\ fst (getFunctionNameWithKind ClassTest.wrongMethodFunction ClassTest.state)
       = Normal "method 'wrongMethod'"
    /\ List.length (Node.params ClassTest.wrongMethodFunction) = 5.
Proof.
  destruct (runRule (contextOf ClassTest.source (Some 2) (Some 3))
              ClassTest.visited ClassTest.state) as [c final] eqn:Hrun.
  vm_compute in Hrun. injection Hrun as <- <-.
  eexists _, _. split; [reflexivity|].
  cbn [reports]. split; [reflexivity|].
  repeat split; vm_compute; reflexivity.
Qed.

(** * Purity *)

Lemma getFunctionHeadLoc_normal (node : ASTNode) (sc : SourceCode) (s : State)
    (loc1 : SourceLocation) (s1 : State) :
  getFunctionHeadLoc node sc s = (Normal loc1, s1) <->
  exists a b la ca lb cb,
    valueOf (selectHeadLoc node sc) = Normal (a, b)
    /\ heap s !! a = Some (PositionObject la ca)
    /\ (heap s ++ [PositionObject la ca]) !! b = Some (PositionObject lb cb)
    /\ loc1 = {| start := List.length (heap s);
                 end_ := S (List.length (heap s)) |}
    /\ s1 = {| heap := heap s ++ [PositionObject la ca; PositionObject lb cb];
               reports := reports s |}.
Proof.
  unfold getFunctionHeadLoc. unfold bind at 1.
  rewrite (selectHeadLoc_stateless node sc s).
  destruct (valueOf (selectHeadLoc node sc)) as [[a b]|e].
  2: { split; [discriminate|]. intros (a & b & la & ca & lb & cb & H & _).
       discriminate H. }
  cbn [fst snd]. unfold bind, Object_assign_empty, alloc, ret.
  destruct (heap s !! a) as [[la ca|items]|] eqn:Ha.
  2,3: split; [discriminate|];
       intros (a' & b' & la & ca & lb & cb & [= <- <-] & H & _);
       rewrite Ha in H; discriminate H.
  cbn [heap reports].
  destruct ((heap s ++ [PositionObject la ca]) !! b) as [[lb cb|items]|] eqn:Hb.
  2,3: split; [discriminate|];
       intros (a' & b' & la' & ca' & lb & cb & [= <- <-] & Ha' & H & _);
       rewrite Ha in Ha'; injection Ha' as <- <-;
       rewrite Hb in H; discriminate H.
  cbn [heap reports]. rewrite length_app, Nat.add_1_r, <- app_assoc. cbn [app].
  split.
  - intros [= <- <-]. by exists a, b, la, ca, lb, cb.
  - intros (a' & b' & la' & ca' & lb' & cb' & [= <- <-] & Ha' & H & -> & ->).
    rewrite Ha in Ha'. injection Ha' as <- <-.
    rewrite Hb in H. by injection H as <- <-.
Qed.

(** C10.  [getFunctionNameWithKind] and [getFunctionHeadLoc] are idempotent
    and change nothing that exists: a second call of the labeler, made in
    the state the first call left, returns the same completion; when
    [getFunctionHeadLoc] returns a span, a second call returns a span with the
    same two positions; the objects a call returns are new ones, every object
    that was in the heap before a call is unchanged after it, and no call
    reports anything. *)
Theorem utilities_are_idempotent (node : ASTNode) (sc : SourceCode) (s : State) :
  (fst (getFunctionNameWithKind node (snd (getFunctionNameWithKind node s)))
   = fst (getFunctionNameWithKind node s)
   /\ preserves s (snd (getFunctionNameWithKind node s))
   /\ preserves (snd (getFunctionNameWithKind node s))
        (snd (getFunctionNameWithKind node
                (snd (getFunctionNameWithKind node s)))))
  /\ (forall loc1 s1,
        getFunctionHeadLoc node sc s = (Normal loc1, s1) ->
        exists loc2 s2 positions,
          getFunctionHeadLoc node sc s1 = (Normal loc2, s2)
          /\ readLoc s1 loc1 = Some positions
          /\ readLoc s2 loc2 = Some positions
          /\ readLoc s2 loc1 = Some positions
          /\ List.length (heap s) <= start loc1
          /\ List.length (heap s) <= end_ loc1
          /\ preserves s s1
          /\ preserves s1 s2)
  /\ (forall c s1, getFunctionHeadLoc node sc s = (c, s1) -> preserves s s1)
  /\ (forall e,
        valueOf (selectHeadLoc node sc) = Throw e ->
        getFunctionHeadLoc node sc s = (Throw e, s)).
Proof.
  split; [|split; [|split]].
  - rewrite !getFunctionNameWithKind_value.
    split; [reflexivity|].
    split; apply getFunctionNameWithKind_preserves.
  - intros loc1 s1 Hrun.
    pose proof (getFunctionHeadLoc_preserves _ _ _ _ _ Hrun) as Hpreserves.
    apply getFunctionHeadLoc_normal in Hrun
      as (a & b & la & ca & lb & cb & Hsel & Ha & Hb & -> & ->).
    set (s1 := {| heap := heap s ++ [PositionObject la ca; PositionObject lb cb];
                  reports := reports s |}) in *.
    assert (getFunctionHeadLoc node sc s1
            = (Normal {| start := List.length (heap s1);
                         end_ := S (List.length (heap s1)) |},
               {| heap := heap s1 ++ [PositionObject la ca; PositionObject lb cb];
                  reports := reports s1 |})) as Hrun2.
    { apply getFunctionHeadLoc_normal. exists a, b, la, ca, lb, cb.
      repeat split; try assumption.
      - subst s1. cbn [heap]. by apply lookup_app_l_Some.
      - subst s1. cbn [heap].
        replace ((heap s ++ [PositionObject la ca; PositionObject lb cb])
                 ++ [PositionObject la ca])
          with ((heap s ++ [PositionObject la ca])
                ++ [PositionObject lb cb; PositionObject la ca])
          by (by rewrite <- !app_assoc).
        by apply lookup_app_l_Some. }
    eexists _, _, ((la, ca), (lb, cb)). split; [exact Hrun2|].
    assert (forall h : Heap,
              readLoc {| heap := h ++ [PositionObject la ca; PositionObject lb cb];
                         reports := reports s |}
                {| start := List.length h; end_ := S (List.length h) |}
              = Some ((la, ca), (lb, cb))) as Hread.
    { intros h. unfold readLoc, readPosition. cbn [start end_ heap].
      rewrite !lookup_app_r by lia. rewrite Nat.sub_diag.
      replace (S (List.length h) - List.length h) with 1 by lia.
      reflexivity. }
    split; [apply Hread|].
    split; [subst s1; cbn [reports]; apply Hread|].
    split.
    { unfold readLoc.
      pose proof (Hread (heap s)) as Hfirst. unfold readLoc in Hfirst.
      destruct (readPosition _ (start _)) as [p1|] eqn:H1 in Hfirst;
        [|discriminate].
      destruct (readPosition _ (end_ _)) as [p2|] eqn:H2 in Hfirst;
        [|discriminate].
      assert (preserves s1 {| heap := heap s1 ++ [PositionObject la ca;
                                                   PositionObject lb cb];
                              reports := reports s1 |}) as Hp
        by (split; [reflexivity|eexists; reflexivity]).
      rewrite (preserves_readPosition _ _ _ _ Hp H1).
      rewrite (preserves_readPosition _ _ _ _ Hp H2). exact Hfirst. }
    cbn [start end_].
    split; [lia|]. split; [lia|]. split; [exact Hpreserves|].
    split; [reflexivity|]. eexists. reflexivity.
  - intros c s1. apply getFunctionHeadLoc_preserves.
  - intros e Hsel. unfold getFunctionHeadLoc. unfold bind at 1.
    by rewrite (selectHeadLoc_stateless node sc s), Hsel.
Qed.

Lemma utilities_are_idempotent_witness :
  (exists loc2 s2 positions,
     getFunctionHeadLoc FunctionTest.test FunctionTest.source
       (snd (getFunctionHeadLoc FunctionTest.test FunctionTest.source
               FunctionTest.state))
     = (Normal loc2, s2)
     /\ readLoc (snd (getFunctionHeadLoc FunctionTest.test FunctionTest.source
                        FunctionTest.state))
          {| start := 36; end_ := 37 |}
        = Some positions
     /\ readLoc s2 loc2 = Some positions
     /\ readLoc s2 {| start := 36; end_ := 37 |} = Some positions
     /\ List.length (heap FunctionTest.state) <= 36
     /\ List.length (heap FunctionTest.state) <= 37
     /\ preserves FunctionTest.state
          (snd (getFunctionHeadLoc FunctionTest.test FunctionTest.source
                  FunctionTest.state))
     /\ preserves
          (snd (getFunctionHeadLoc FunctionTest.test FunctionTest.source
                  FunctionTest.state))
          s2)
  /\ getFunctionHeadLoc BareArrow.arrow
       {| tokens := [] |} BareArrow.state
     = (Throw TypeError, BareArrow.state).
Proof.
  split.
  - apply (proj1 (proj2 (utilities_are_idempotent FunctionTest.test
                           FunctionTest.source FunctionTest.state))
             {| start := 36; end_ := 37 |}).
    vm_compute. reflexivity.
  - apply (proj2 (proj2 (proj2 (utilities_are_idempotent BareArrow.arrow
                                  {| tokens := [] |} BareArrow.state)))).
    vm_compute. reflexivity.
Defined.

(** * The labeler fills its array with the words of the label *)

Lemma getFunctionNameWithKind_words (node parent : ASTNode) :
  Node.parent node = Some parent ->
  (memberLike parent -> is_Some (Node.key parent)) ->
  valueOf (getFunctionNameWithKind node) = Normal (labelOf node parent).
Proof.
  intros Hparent Hkey.
  unfold labelOf, labelWords, modifierWords, kindWords, nameWords, ownNameWords,
    isConstructorMember, privateKey.
  unfold_labeler. rewrite Hparent. cbn.
  destruct (Node.key parent) as [key|] eqn:Hk.
  - run; reflexivity.
  - assert (~ memberLike parent) as Hmember
        by (intros H; destruct (Hkey H) as [k Hk']; discriminate Hk').
    pose proof (memberLike_false parent Hmember) as Hfalse.
    apply orb_false_iff in Hfalse as [Hfalse HPD].
    apply orb_false_iff in Hfalse as [HP HMD].
    rewrite HP, HMD, HPD. cbn.
    run; reflexivity.
Qed.

Ltac in_list :=
  repeat (apply elem_of_cons; first [left; reflexivity | right]).

Lemma modifierWords_leading (node parent : ASTNode) :
  Forall (fun w => w ∈ leadingWords) (modifierWords node parent).
Proof.
  unfold modifierWords, leadingWords.
  repeat match goal with
         | |- context [if ?b then _ else _] => destruct b
         end; cbn; repeat constructor; in_list.
Qed.

Lemma kindWords_leading (node parent : ASTNode) :
  exists w ws, kindWords node parent = w :: ws /\ w ∈ leadingWords.
Proof.
  unfold kindWords, leadingWords.
  repeat match goal with
         | |- context [if ?b then _ else _] => destruct b
         end; cbn; eexists _, _; (split; [reflexivity|in_list]).
Qed.

Lemma labelWords_leading (node parent : ASTNode) :
  exists w ws, labelWords node parent = w :: ws /\ w ∈ leadingWords.
Proof.
  unfold labelWords.
  destruct (kindWords_leading node parent) as (k & ks & -> & Hk).
  pose proof (modifierWords_leading node parent) as Hm.
  destruct (modifierWords node parent) as [|m ms]; cbn.
  - by exists k, (ks ++ nameWords node parent).
  - exists m, (ms ++ k :: ks ++ nameWords node parent). split; [reflexivity|].
    by inversion Hm.
Qed.

Lemma leadingWords_first (w : string) :
  w ∈ leadingWords ->
  exists c rest,
    w = String c rest /\ isLowerCase c = true /\ c <> "c"%char.
Proof.
  unfold leadingWords. intros Hw.
  repeat (apply elem_of_cons in Hw as [->|Hw];
          [eexists _, _; repeat split; discriminate|]).
  by apply elem_of_nil in Hw.
Qed.

Lemma concat_first (sep : string) (c : ascii) (rest : string) (ws : list string) :
  exists tail, String.concat sep (String c rest :: ws) = String c tail.
Proof.
  destruct ws as [|w ws]; cbn; eexists; reflexivity.
Qed.

(** A label that is not [constructor] begins with a lower-case letter other
    than [c]. *)
Lemma labelWords_first (node parent : ASTNode) :
  exists c tail,
    String.concat " " (labelWords node parent) = String c tail
    /\ isLowerCase c = true /\ c <> "c"%char.
Proof.
  destruct (labelWords_leading node parent) as (w & ws & -> & Hw).
  destruct (leadingWords_first w Hw) as (c & rest & -> & Hlower & Hc).
  destruct (concat_first " " c rest ws) as [tail ->].
  by exists c, tail.
Qed.

(** X1.  On a node whose parent exists, and has a key when it is a Property,
    a MethodDefinition or a PropertyDefinition, [getFunctionNameWithKind]
    returns normally in every state.  The label is [constructor] when the
    parent is a Property or MethodDefinition of kind [constructor];
    otherwise it is, joined by single spaces: [static] and [private] (class
    members only), [async], [generator], the kind ([getter], [setter],
    [method], or [arrow]? [function]), then the name: [#name] unquoted for a
    private key, else the static property name in quotes, else the function's
    own name in quotes, else nothing. *)
Theorem getFunctionNameWithKind_label (node parent : ASTNode) (s : State) :
  Node.parent node = Some parent ->
  (memberLike parent -> is_Some (Node.key parent)) ->
  fst (getFunctionNameWithKind node s)
  = Normal (if isConstructorMember parent then "constructor"
            else String.concat " "
                   (modifierWords node parent ++ kindWords node parent
                    ++ nameWords node parent))
  /\ preserves s (snd (getFunctionNameWithKind node s)).
Proof.
  intros Hparent Hkey. split.
  - rewrite getFunctionNameWithKind_value.
    exact (getFunctionNameWithKind_words node parent Hparent Hkey).
  - apply getFunctionNameWithKind_preserves.
Qed.

Lemma getFunctionNameWithKind_label_witness :
  fst (getFunctionNameWithKind ClassTest.wrongMethodFunction ClassTest.state)
  = Normal "method 'wrongMethod'"
  /\ preserves ClassTest.state
       (snd (getFunctionNameWithKind ClassTest.wrongMethodFunction
               ClassTest.state)).
Proof.
  apply (getFunctionNameWithKind_label ClassTest.wrongMethodFunction
           ClassTest.wrongMethodDefinition ClassTest.state eq_refl).
  intros _. exists ClassTest.wrongMethod_key. reflexivity.
Defined.

(** X2.  The label is [constructor] exactly for the functions whose parent is
    a Property or a MethodDefinition of kind [constructor]: no other
    function, whatever its name or its key, gets the constructor limit. *)
Theorem getFunctionNameWithKind_constructor_iff (node parent : ASTNode)
    (s : State) :
  Node.parent node = Some parent ->
  (memberLike parent -> is_Some (Node.key parent)) ->
  fst (getFunctionNameWithKind node s) = Normal "constructor"
  <-> (Node.type parent = "Property" \/ Node.type parent = "MethodDefinition")
      /\ Node.kind parent = Some "constructor".
Proof.
  intros Hparent Hkey.
  rewrite getFunctionNameWithKind_value,
    (getFunctionNameWithKind_words node parent Hparent Hkey).
  unfold labelOf, isConstructorMember, strictEq.
  split.
  - destruct ((Node.type parent === "Property")
              || (Node.type parent === "MethodDefinition")) eqn:Htype; cbn.
    + apply orb_true_iff in Htype. rewrite !String.eqb_eq in Htype.
      destruct (Node.kind parent) as [kind|]; cbn.
      * destruct (kind === "constructor") eqn:Hkind.
        -- apply String.eqb_eq in Hkind as ->. tauto.
        -- destruct (labelWords_first node parent) as (c & tail & -> & _ & Hc).
           intros [= -> _]. by destruct Hc.
      * destruct (labelWords_first node parent) as (c & tail & -> & _ & Hc).
        intros [= -> _]. by destruct Hc.
    + destruct (labelWords_first node parent) as (c & tail & -> & _ & Hc).
      intros [= -> _]. by destruct Hc.
  - intros [Htype ->].
    assert ((Node.type parent === "Property")
            || (Node.type parent === "MethodDefinition") = true) as ->.
    { apply orb_true_iff. rewrite !String.eqb_eq. exact Htype. }
    reflexivity.
Qed.

Lemma getFunctionNameWithKind_constructor_iff_witness :
  (fst (getFunctionNameWithKind ClassTest.wrongMethodFunction ClassTest.state)
   = Normal "constructor"
   <-> (Node.type ClassTest.wrongMethodDefinition = "Property"
        \/ Node.type ClassTest.wrongMethodDefinition = "MethodDefinition")
       /\ Node.kind ClassTest.wrongMethodDefinition = Some "constructor")
  /\ Node.name ClassTest.wrongMethod_key = "wrongMethod".
Proof.
  split; [|reflexivity].
  apply (getFunctionNameWithKind_constructor_iff ClassTest.wrongMethodFunction
           ClassTest.wrongMethodDefinition ClassTest.state eq_refl).
  intros _. exists ClassTest.wrongMethod_key. reflexivity.
Defined.

(** * Capitalising *)

Lemma substring_tail (s : string) : substring 0 (String.length s) s = s.
Proof. induction s as [|c s IH]; cbn; [reflexivity|by rewrite IH]. Qed.

Lemma toUpperCaseChar_idempotent (c : ascii) :
  toUpperCaseChar (toUpperCaseChar c) = toUpperCaseChar c.
Proof.
  destruct c as [[] [] [] [] [] [] [] []]; vm_compute; reflexivity.
Qed.

Lemma toUpperCase_length (s : string) :
  String.length (toUpperCase s) = String.length s.
Proof. induction s as [|c s IH]; cbn; [reflexivity|by rewrite IH]. Qed.

Lemma upperCaseFirst_cons (c : ascii) (rest : string) :
  upperCaseFirst (String c rest) = String (toUpperCaseChar c) rest.
Proof.
  unfold upperCaseFirst.
  destruct rest as [|d rest]; [reflexivity|].
  cbn. by rewrite substring_tail.
Qed.

(** X3.  On a string whose first character is an ASCII character,
    [upperCaseFirst] changes that character and nothing else, in both of its
    branches: a letter from [a] to [z] becomes the upper-case letter, any
    other ASCII character stays, and the rest of the string is untouched.  So
    the length is kept and capitalising twice is capitalising once.  The
    empty string stays empty. *)
Theorem upperCaseFirst_first (c : ascii) (rest : string) :
  nat_of_ascii c < 128 ->
  upperCaseFirst EmptyString = EmptyString
  /\ upperCaseFirst (String c rest) = String (toUpperCaseChar c) rest
  /\ (isLowerCase c = true ->
      nat_of_ascii (toUpperCaseChar c) = nat_of_ascii c - 32)
  /\ (isLowerCase c = false -> upperCaseFirst (String c rest) = String c rest)
  /\ String.length (upperCaseFirst (String c rest))
     = String.length (String c rest)
  /\ upperCaseFirst (upperCaseFirst (String c rest))
     = upperCaseFirst (String c rest).
Proof.
  intros _.
  split; [reflexivity|]. split; [apply upperCaseFirst_cons|].
  split; [|split; [|split]].
  - unfold isLowerCase, toUpperCaseChar. intros ->.
    apply nat_ascii_embedding.
    pose proof (nat_ascii_bounded c). lia.
  - intros Hc. rewrite upperCaseFirst_cons.
    unfold isLowerCase in Hc. unfold toUpperCaseChar. by rewrite Hc.
  - by rewrite upperCaseFirst_cons.
  - by rewrite !upperCaseFirst_cons, toUpperCaseChar_idempotent.
Qed.

Lemma upperCaseFirst_first_witness :
  upperCaseFirst EmptyString = EmptyString
  /\ upperCaseFirst "function 'test'" = "Function 'test'"
  /\ upperCaseFirst "'quoted'" = "'quoted'".
Proof.
  split; [|split].
  - apply (upperCaseFirst_first "f" "unction 'test'").
    vm_compute. lia.
  - apply (proj1 (proj2 (upperCaseFirst_first "f" "unction 'test'"
                           ltac:(vm_compute; lia)))).
  - apply (proj1 (proj2 (proj2 (proj2 (upperCaseFirst_first "'" "quoted'"
                                         ltac:(vm_compute; lia)))))).
    reflexivity.
Defined.

(** X4.  A label always begins with a lower-case letter, so it is never
    empty, and what the rule reports as [name] is the label with that one
    letter in upper case: the quoted name of the function is never
    altered. *)
Theorem getFunctionNameWithKind_capitalised (node parent : ASTNode) (s : State) :
  Node.parent node = Some parent ->
  (memberLike parent -> is_Some (Node.key parent)) ->
  exists c tail,
    fst (getFunctionNameWithKind node s) = Normal (String c tail)
    /\ isLowerCase c = true
    /\ upperCaseFirst (String c tail) = String (toUpperCaseChar c) tail
    /\ toUpperCaseChar c <> c.
Proof.
  intros Hparent Hkey.
  rewrite getFunctionNameWithKind_value,
    (getFunctionNameWithKind_words node parent Hparent Hkey).
  assert (exists c tail, labelOf node parent = String c tail
                         /\ isLowerCase c = true) as (c & tail & -> & Hlower).
  { unfold labelOf. destruct (isConstructorMember parent).
    - by eexists _, _.
    - destruct (labelWords_first node parent) as (c & tail & -> & Hlower & _).
      by exists c, tail. }
  exists c, tail. split; [reflexivity|]. split; [exact Hlower|].
  split; [apply upperCaseFirst_cons|].
  clear - Hlower. unfold isLowerCase in Hlower.
  destruct c as [[] [] [] [] [] [] [] []]; vm_compute in Hlower |- *;
    congruence.
Qed.

Lemma getFunctionNameWithKind_capitalised_witness :
  exists c tail,
    fst (getFunctionNameWithKind FunctionTest.test FunctionTest.state)
    = Normal (String c tail)
    /\ isLowerCase c = true
    /\ upperCaseFirst (String c tail) = String (toUpperCaseChar c) tail
    /\ toUpperCaseChar c <> c.
Proof.
  apply (getFunctionNameWithKind_capitalised FunctionTest.test
           FunctionTest.program FunctionTest.state eq_refl).
  intros [H|[H|H]]; discriminate H.
Defined.

(** * Static property names *)

Lemma getStaticPropertyName_unfold (node : ASTNode) :
  getStaticPropertyName node
  = if Node.type node === "ChainExpression" then
      match Node.expression node with
      | Some e => getStaticPropertyName e
      | None => None
      end
    else
      match (if (Node.type node === "Property")
                || (Node.type node === "PropertyDefinition")
                || (Node.type node === "MethodDefinition")
             then Node.key node
             else if Node.type node === "MemberExpression"
                  then Node.property node
                  else None) with
      | Some prop =>
          if (Node.type prop === "Identifier") && negb (Node.computed node)
          then Some (Node.name prop)
          else getStaticStringValue prop
      | None => None
      end.
Proof. destruct node. reflexivity. Qed.

Lemma getStaticStringValue_other (node : ASTNode) :
  Node.type node <> "Literal" ->
  Node.type node <> "TemplateLiteral" ->
  getStaticStringValue node = None.
Proof.
  intros Hliteral Htemplate. unfold getStaticStringValue.
  apply String.eqb_neq in Hliteral, Htemplate.
  by rewrite Hliteral, Htemplate.
Qed.

(** X5.  For a Property, a PropertyDefinition or a MethodDefinition,
    [getStaticPropertyName] reads the key: an identifier key gives its name
    when the member is not computed and [null] when it is computed (the name
    is then that of a variable, unknown statically); a private identifier key
    gives [null]; any other key gives what [getStaticStringValue] gives of
    it, whether the member is computed or not.  A member without a key, and a
    node of any other kind than these, a MemberExpression or a
    ChainExpression, give [null]. *)
Theorem getStaticPropertyName_key (node : ASTNode) :
  (forall key,
     memberLike node ->
     Node.key node = Some key ->
     (Node.type key = "Identifier" -> Node.computed node = false ->
      getStaticPropertyName node = Some (Node.name key))
     /\ (Node.type key = "Identifier" -> Node.computed node = true ->
         getStaticPropertyName node = None)
     /\ (Node.type key = "PrivateIdentifier" ->
         getStaticPropertyName node = None)
     /\ (Node.type key <> "Identifier" ->
         getStaticPropertyName node = getStaticStringValue key))
  /\ (memberLike node -> Node.key node = None ->
      getStaticPropertyName node = None)
  /\ (~ memberLike node ->
      Node.type node <> "MemberExpression" ->
      Node.type node <> "ChainExpression" ->
      getStaticPropertyName node = None).
Proof.
  assert (memberLike node ->
          (Node.type node === "ChainExpression") = false
          /\ (Node.type node === "Property")
             || (Node.type node === "PropertyDefinition")
             || (Node.type node === "MethodDefinition") = true) as Hmember.
  { intros [H|[H|H]]; rewrite H; split; reflexivity. }
  split; [|split].
  - intros key Hnode Hkey. destruct (Hmember Hnode) as [Hchain Htest].
    rewrite getStaticPropertyName_unfold, Hchain, Htest, Hkey.
    split; [|split; [|split]].
    + intros -> ->. reflexivity.
    + intros Hid ->. rewrite Hid. cbn.
      apply getStaticStringValue_other; rewrite Hid; discriminate.
    + intros Hprivate. rewrite Hprivate. cbn.
      apply getStaticStringValue_other; rewrite Hprivate; discriminate.
    + intros Hid. apply String.eqb_neq in Hid. by rewrite Hid.
  - intros Hnode Hkey. destruct (Hmember Hnode) as [Hchain Htest].
    by rewrite getStaticPropertyName_unfold, Hchain, Htest, Hkey.
  - intros Hnode Hmemberexpr Hchain.
    rewrite getStaticPropertyName_unfold.
    apply String.eqb_neq in Hmemberexpr, Hchain.
    rewrite Hchain, Hmemberexpr.
    assert ((Node.type node === "Property")
            || (Node.type node === "PropertyDefinition")
            || (Node.type node === "MethodDefinition") = false) as ->.
    { unfold memberLike in Hnode.
      rewrite !orb_false_iff, !String.eqb_neq. tauto. }
    reflexivity.
Qed.

Lemma getStaticPropertyName_key_witness :
  getStaticPropertyName ClassTest.wrongMethodDefinition = Some "wrongMethod"
  /\ getStaticPropertyName computedIdentifierProperty = None
  /\ getStaticPropertyName privateMethod = None
  /\ getStaticPropertyName numericProperty = Some "100"
  /\ getStaticPropertyName keylessProperty = None
  /\ getStaticPropertyName ClassTest.classBody = None.
Proof.
  split; [|split; [|split; [|split; [|split]]]].
  - apply (proj1 (proj1 (getStaticPropertyName_key
                           ClassTest.wrongMethodDefinition)
                    ClassTest.wrongMethod_key
                    ltac:(right; left; reflexivity) eq_refl));
      reflexivity.
  - apply (proj1 (proj2 (proj1 (getStaticPropertyName_key
                                  computedIdentifierProperty)
                           (identifierNode "Identifier" 0 (0, 0) "b")
                           ltac:(left; reflexivity) eq_refl)));
      reflexivity.
  - apply (proj1 (proj2 (proj2 (proj1 (getStaticPropertyName_key privateMethod)
                                  (identifierNode "PrivateIdentifier" 0 (0, 0) "foo")
                                  ltac:(right; left; reflexivity) eq_refl))));
      reflexivity.
  - apply (proj2 (proj2 (proj2 (proj1 (getStaticPropertyName_key numericProperty)
                                  (literalNode (JSNumber 100) None None)
                                  ltac:(left; reflexivity) eq_refl))));
      discriminate.
  - apply (proj1 (proj2 (getStaticPropertyName_key keylessProperty)));
      [left; reflexivity | reflexivity].
  - apply (proj2 (proj2 (getStaticPropertyName_key ClassTest.classBody)));
      [intros [H|[H|H]]; discriminate H | discriminate | discriminate].
Defined.

(** X6.  [getStaticPropertyName] looks through ChainExpression wrappers at
    any depth, not only one: a node that wraps [inner] in any number of chain
    expressions has the static name of [inner].  A chain expression whose
    [expression] is [null] has none. *)
Theorem getStaticPropertyName_chain (node inner : ASTNode) :
  (unwrapsTo node inner ->
   getStaticPropertyName node = getStaticPropertyName inner)
  /\ (Node.type node = "ChainExpression" -> Node.expression node = None ->
      getStaticPropertyName node = None).
Proof.
  split.
  - induction 1 as [node Hnode|node expression inner Htype Hexpression _ IH].
    + reflexivity.
    + by rewrite getStaticPropertyName_unfold, Htype, Hexpression.
  - intros Htype Hexpression.
    by rewrite getStaticPropertyName_unfold, Htype, Hexpression.
Qed.

Lemma getStaticPropertyName_chain_witness :
  getStaticPropertyName
    (chainNode (Some (chainNode (Some
       (memberExpressionNode
          (Some (identifierNode "Identifier" 0 (0, 0) "b")) false)))))
  = getStaticPropertyName
      (memberExpressionNode
         (Some (identifierNode "Identifier" 0 (0, 0) "b")) false)
  /\ getStaticPropertyName
       (memberExpressionNode
          (Some (identifierNode "Identifier" 0 (0, 0) "b")) false)
     = Some "b"
  /\ getStaticPropertyName (chainNode None) = None.
Proof.
  split; [|split; [reflexivity|]].
  - apply (proj1 (getStaticPropertyName_chain _ _)).
    eapply unwraps_chain; [reflexivity|reflexivity|].
    eapply unwraps_chain; [reflexivity|reflexivity|].
    apply unwraps_here. discriminate.
  - apply (proj2 (getStaticPropertyName_chain (chainNode None) (chainNode None)));
      reflexivity.
Defined.

(** * The rule, node by node *)

Lemma bind_normal {A B} (m : M A) (k : A -> M B) (s s' : State) (b : B) :
  bind m k s = (Normal b, s') ->
  exists a s1, m s = (Normal a, s1) /\ k a s1 = (Normal b, s').
Proof.
  unfold bind. destruct (m s) as [[a|e] s1]; [|discriminate].
  intros H. by exists a, s1.
Qed.

Lemma listenerFor_create (context : RuleContext) (type : string) :
  listenerFor (create context) type
  = if isFunctionLike type then Some (checkFunction context) else None.
Proof.
  unfold create, isFunctionLike. cbn [listenerFor].
  rewrite (String.eqb_sym "FunctionDeclaration" type),
    (String.eqb_sym "ArrowFunctionExpression" type),
    (String.eqb_sym "FunctionExpression" type).
  destruct (type === "FunctionDeclaration"),
    (type === "ArrowFunctionExpression"),
    (type === "FunctionExpression"); reflexivity.
Qed.

(** A check that ends normally adds the verdict on the node, and only it. *)
Lemma checkFunction_verdict (context : RuleContext) (node : ASTNode)
    (s s' : State) :
  checkFunction context node s = (Normal tt, s') ->
  map reported (reports s')
  = map reported (reports s)
    ++ match verdict context node with
       | Some data => [(node, data)]
       | None => []
       end.
Proof.
  intros Hrun. unfold verdict.
  pose proof (getFunctionNameWithKind_value node s) as Hvalue.
  pose proof (getFunctionNameWithKind_preserves node s) as [Hreports _].
  destruct (valueOf (getFunctionNameWithKind node)) as [name|e].
  - rewrite (checkFunction_run context node s name Hvalue) in Hrun.
    cbv zeta in Hrun |- *.
    destruct (greaterThan _ _).
    + destruct (getFunctionHeadLoc node (sourceCode context)
                  (snd (getFunctionNameWithKind node s)))
        as [[loc|e] s2] eqn:Hloc; [|discriminate].
      pose proof (getFunctionHeadLoc_preserves _ _ _ _ _ Hloc) as [Hreports2 _].
      injection Hrun as <-. cbn [reports].
      rewrite map_app, Hreports2, Hreports. reflexivity.
    + injection Hrun as <-. by rewrite Hreports, app_nil_r.
  - unfold checkFunction, bind in Hrun.
    destruct (getFunctionNameWithKind node s) as [c s1]. cbn [fst] in Hvalue.
    subst c. discriminate.
Qed.

(** X7.  When the traversal ends normally, what it has added to the reports
    is, in the order of the visit, the verdict on each function declaration,
    function expression and arrow function taken on its own: the reports that
    were there are kept, nodes of other types add nothing, and the verdict on
    a node depends neither on the state nor on the nodes visited before. *)
Theorem runRule_verdicts (context : RuleContext) (visited : list ASTNode)
    (s s' : State) :
  runRule context visited s = (Normal tt, s') ->
  map reported (reports s')
  = map reported (reports s) ++ verdicts context visited.
Proof.
  unfold runRule, verdicts. revert s.
  induction visited as [|node rest IH]; intros s Hrun.
  - injection Hrun as <-. by rewrite app_nil_r.
  - cbn [traverse flat_map] in Hrun |- *.
    apply bind_normal in Hrun as ([] & s1 & Hnode & Hrest).
    rewrite (IH s1 Hrest), app_assoc. f_equal.
    rewrite listenerFor_create in Hnode.
    destruct (isFunctionLike (Node.type node)).
    + exact (checkFunction_verdict context node s s1 Hnode).
    + injection Hnode as <-. by rewrite app_nil_r.
Qed.

Lemma runRule_verdicts_witness :
  map reported
    (reports (snd (runRule (contextOf ClassTest.source (Some 2) (Some 3))
                     ClassTest.visited ClassTest.state)))
  = map reported (reports ClassTest.state)
    ++ verdicts (contextOf ClassTest.source (Some 2) (Some 3)) ClassTest.visited.
Proof.
  apply (runRule_verdicts (contextOf ClassTest.source (Some 2) (Some 3))
           ClassTest.visited ClassTest.state).
  vm_compute. reflexivity.
Defined.

(** X8.  One call of [checkFunction] adds at most one report.  A report it
    adds is on the node it was given, has the message [exceed], a [count]
    that is the number of parameters of the node and a [max] that is a
    configured limit of at least 1 and smaller than [count]; its span can be
    read in the final state.  A report is added only by a call that ends
    normally: when the call throws, it has added nothing. *)
Theorem checkFunction_report (context : RuleContext) (node : ASTNode)
    (s : State) :
  (fst (checkFunction context node s) = Normal tt
   \/ exists e, fst (checkFunction context node s) = Throw e)
  /\ (reports (snd (checkFunction context node s)) = reports s
      \/ exists descriptor limit option,
           reports (snd (checkFunction context node s))
           = reports s ++ [descriptor]
           /\ fst (checkFunction context node s) = Normal tt
           /\ Report.node descriptor = node
           /\ Report.messageId descriptor = "exceed"
           /\ Data.count (Report.data descriptor)
              = List.length (Node.params node)
           /\ Data.max (Report.data descriptor) = Some limit
           /\ 1 <= limit
           /\ limit < List.length (Node.params node)
           /\ (options context !! 0) = Some option
           /\ (func option = Some limit \/ constructor option = Some limit)
           /\ is_Some (readLoc (snd (checkFunction context node s))
                         (Report.loc descriptor))).
Proof.
  pose proof (getFunctionNameWithKind_preserves node s) as [Hreports _].
  destruct (fst (getFunctionNameWithKind node s)) as [name|e] eqn:Hname.
  2: { unfold checkFunction, bind.
       destruct (getFunctionNameWithKind node s) as [c s1].
       cbn [fst snd] in *. subst c. cbn [fst snd].
       split; [right; by exists e|]. by left. }
  rewrite (checkFunction_run context node s name Hname). cbv zeta.
  set (limit := if name === "constructor" then constructorNumParams context
                else funcNumParams context).
  assert (forall m, limit = Some m ->
            1 <= m /\ exists option,
              (options context !! 0) = Some option
              /\ (func option = Some m \/ constructor option = Some m))
    as Hlimit.
  { intros m. subst limit. unfold constructorNumParams, funcNumParams.
    destruct (options context !! 0) as [option|];
      [|destruct (name === "constructor"); discriminate].
    destruct (name === "constructor").
    - destruct (constructor option) as [[|k]|] eqn:Hc; cbn; try discriminate.
      intros [= <-]. split; [lia|]. exists option. split; [reflexivity|by right].
    - destruct (func option) as [[|k]|] eqn:Hf; cbn; try discriminate.
      intros [= <-]. split; [lia|]. exists option. split; [reflexivity|by left]. }
  destruct (greaterThan (List.length (Node.params node)) limit) eqn:Hgt.
  2: { cbn [fst snd]. split; [by left|]. by left. }
  destruct (getFunctionHeadLoc node (sourceCode context)
              (snd (getFunctionNameWithKind node s)))
    as [[loc|e] s2] eqn:Hloc; cbn [fst snd].
  2: { pose proof (getFunctionHeadLoc_preserves _ _ _ _ _ Hloc) as [Hreports2 _].
       split; [right; by exists e|]. left; congruence. }
  pose proof (getFunctionHeadLoc_preserves _ _ _ _ _ Hloc) as [Hreports2 _].
  split; [by left|].
  right. unfold greaterThan in Hgt.
  destruct limit as [m|] eqn:Hm; [|discriminate].
  apply Nat.ltb_lt in Hgt.
  destruct (Hlimit m eq_refl) as (Hpos & option & Hoption & Hfrom).
  eexists _, m, option. cbn [reports heap].
  split; [by rewrite Hreports2, Hreports|].
  repeat (split; [first [reflexivity | assumption | lia]|]).
  cbn [Report.loc].
  apply getFunctionHeadLoc_normal in Hloc
    as (a & b & la & ca & lb & cb & _ & _ & _ & -> & ->).
  exists ((la, ca), (lb, cb)).
  unfold readLoc, readPosition. cbn [start end_ heap].
  rewrite !lookup_app_r by lia. rewrite Nat.sub_diag.
  replace (S (List.length (heap (snd (getFunctionNameWithKind node s))))
           - List.length (heap (snd (getFunctionNameWithKind node s))))
    with 1 by lia.
  reflexivity.
Qed.

(** X9.  The two limits are independent: the [constructor] option has no
    effect on a node whose label is not [constructor], and the [func] option
    has none on a node whose label is [constructor]. *)
Theorem checkFunction_limits_independent (sc : SourceCode)
    (func1 func2 constructor1 constructor2 : option nat)
    (rest : list RuleOptions) (node : ASTNode) (s : State) :
  (fst (getFunctionNameWithKind node s) <> Normal "constructor" ->
   checkFunction (mkContext sc (mkOptions func1 constructor1 :: rest)) node s
   = checkFunction (mkContext sc (mkOptions func1 constructor2 :: rest)) node s)
  /\ (fst (getFunctionNameWithKind node s) = Normal "constructor" ->
      checkFunction (mkContext sc (mkOptions func1 constructor1 :: rest)) node s
      = checkFunction (mkContext sc (mkOptions func2 constructor1 :: rest))
          node s).
Proof.
  split.
  - intros Hname.
    destruct (fst (getFunctionNameWithKind node s)) as [name|e] eqn:Hvalue.
    + rewrite !(checkFunction_run _ node s name Hvalue). cbv zeta.
      assert ((name === "constructor") = false) as ->.
      { apply String.eqb_neq. congruence. }
      reflexivity.
    + unfold checkFunction, bind.
      destruct (getFunctionNameWithKind node s) as [c s1]. cbn [fst] in Hvalue.
      by subst c.
  - intros Hname. by rewrite !(checkFunction_run _ node s _ Hname).
Qed.

Lemma checkFunction_limits_independent_witness :
  checkFunction (mkContext ClassTest.source (mkOptions (Some 2) (Some 3) :: []))
    ClassTest.wrongMethodFunction ClassTest.state
  = checkFunction (mkContext ClassTest.source (mkOptions (Some 2) (Some 1) :: []))
      ClassTest.wrongMethodFunction ClassTest.state
  /\ checkFunction (mkContext ClassTest.source (mkOptions (Some 2) (Some 3) :: []))
       ClassTest.constructorFunction ClassTest.state
     = checkFunction (mkContext ClassTest.source (mkOptions (Some 9) (Some 3) :: []))
         ClassTest.constructorFunction ClassTest.state.
Proof.
  split.
  - apply (proj1 (checkFunction_limits_independent ClassTest.source
                    (Some 2) (Some 2) (Some 3) (Some 1) []
                    ClassTest.wrongMethodFunction ClassTest.state)).
    vm_compute. discriminate.
  - apply (proj2 (checkFunction_limits_independent ClassTest.source
                    (Some 2) (Some 9) (Some 3) (Some 3) []
                    ClassTest.constructorFunction ClassTest.state)).
    vm_compute. reflexivity.
Defined.

(** X10.  [checkFunction] throws in two cases only: the labeler throws, or
    the node exceeds its limit and [getFunctionHeadLoc] throws.  The location
    is computed only for a node that is reported: a node within its limit is
    checked without a look at the tokens. *)
Theorem checkFunction_throws (context : RuleContext) (node : ASTNode)
    (s : State) (e : JSError) :
  fst (checkFunction context node s) = Throw e
  <-> fst (getFunctionNameWithKind node s) = Throw e
      \/ exists name,
           fst (getFunctionNameWithKind node s) = Normal name
           /\ greaterThan (List.length (Node.params node))
                (if name === "constructor" then constructorNumParams context
                 else funcNumParams context) = true
           /\ fst (getFunctionHeadLoc node (sourceCode context)
                     (snd (getFunctionNameWithKind node s))) = Throw e.
Proof.
  destruct (fst (getFunctionNameWithKind node s)) as [name|e'] eqn:Hname.
  - rewrite (checkFunction_run context node s name Hname). cbv zeta.
    destruct (greaterThan _ _) eqn:Hgt.
    + destruct (getFunctionHeadLoc node (sourceCode context)
                  (snd (getFunctionNameWithKind node s))) as [[loc|e'] s2];
        cbn [fst].
      * split; [discriminate|].
        intros [H|(name' & _ & _ & H)]; discriminate H.
      * split.
        -- intros H. right. exists name.
           split; [reflexivity|]. split; [exact Hgt|congruence].
        -- intros [H|(name' & _ & _ & H)]; [discriminate H|congruence].
    + cbn [fst]. split; [discriminate|].
      intros [H|(name' & [= <-] & H & _)]; [discriminate H|].
      rewrite Hgt in H. discriminate H.
  - unfold checkFunction, bind.
    destruct (getFunctionNameWithKind node s) as [c s1]. cbn [fst] in Hname.
    subst c. cbn [fst]. split.
    + intros [= ->]. by left.
    + intros [[= ->]|(name & H & _)]; [reflexivity|discriminate H].
Qed.

Lemma checkFunction_throws_witness :
  fst (checkFunction (contextOf {| tokens := [] |} (Some 2) None)
         FunctionTest.test FunctionTest.state)
  = Throw TypeError
  /\ fst (checkFunction (contextOf {| tokens := [] |} (Some 3) None)
            FunctionTest.test FunctionTest.state)
     = Normal tt.
Proof.
  split; [|vm_compute; reflexivity].
  apply (proj2 (checkFunction_throws (contextOf {| tokens := [] |} (Some 2) None)
                  FunctionTest.test FunctionTest.state TypeError)).
  right. exists "function 'test'".
  split; [vm_compute; reflexivity|]. split; vm_compute; reflexivity.
Defined.

(** * The head location: what can go wrong, and what the caller holds *)

(** X11.  [getFunctionHeadLoc] throws a [TypeError], and leaves the state as
    it was, when the node has no parent, when [getOpeningParenOfParams]
    returns [null] for a member or for a function that is not an arrow, and
    when no arrow token stands before the body of an arrow function that is
    not a member. *)
Theorem getFunctionHeadLoc_throws (node : ASTNode) (sc : SourceCode) (s : State) :
  (Node.parent node = None ->
   getFunctionHeadLoc node sc s = (Throw TypeError, s))
  /\ (forall parent,
        Node.parent node = Some parent ->
        memberLike parent \/ Node.type node <> "ArrowFunctionExpression" ->
        getOpeningParenOfParams node sc s = (Normal None, s) ->
        getFunctionHeadLoc node sc s = (Throw TypeError, s))
  /\ (forall parent body,
        Node.parent node = Some parent ->
        ~ memberLike parent ->
        Node.type node = "ArrowFunctionExpression" ->
        Node.body node = Some body ->
        getTokenBefore sc (Node.range body) (Some isArrowToken) = None ->
        getFunctionHeadLoc node sc s = (Throw TypeError, s)).
Proof.
  assert (valueOf (selectHeadLoc node sc) = Throw TypeError ->
          getFunctionHeadLoc node sc s = (Throw TypeError, s)) as Hthrow.
  { intros Hsel. unfold getFunctionHeadLoc. unfold bind at 1.
    by rewrite (selectHeadLoc_stateless node sc s), Hsel. }
  split; [|split].
  - intros Hparent. apply Hthrow. unfold selectHeadLoc. by rewrite Hparent.
  - intros parent Hparent Hcase Hparen. apply Hthrow.
    apply (valueOf_run _ _ _ (getOpeningParenOfParams_stateless node sc))
      in Hparen.
    unfold selectHeadLoc. rewrite Hparent.
    rewrite valueOf_bind by apply stateless_deref.
    cbn [valueOf deref ret fst].
    destruct ((Node.type parent === "Property")
              || (Node.type parent === "MethodDefinition")
              || (Node.type parent === "PropertyDefinition")) eqn:Hmember.
    + rewrite valueOf_bind by apply getOpeningParenOfParams_stateless.
      by rewrite Hparen.
    + destruct Hcase as [Hcase|Hcase].
      * rewrite (memberLike_true parent Hcase) in Hmember. discriminate.
      * apply String.eqb_neq in Hcase. rewrite Hcase.
        rewrite valueOf_bind by apply getOpeningParenOfParams_stateless.
        by rewrite Hparen.
  - intros parent body Hparent Hmember Harrow Hbody Htoken. apply Hthrow.
    unfold selectHeadLoc. rewrite Hparent.
    rewrite valueOf_bind by apply stateless_deref.
    cbn [valueOf deref ret fst]. rewrite (memberLike_false parent Hmember).
    rewrite Harrow, Hbody. cbn [String.eqb Ascii.eqb Bool.eqb andb deref].
    unfold bind, ret. by rewrite Htoken.
Qed.

Lemma getFunctionHeadLoc_throws_witness :
  getFunctionHeadLoc FunctionTest.program FunctionTest.source FunctionTest.state
  = (Throw TypeError, FunctionTest.state)
  /\ getFunctionHeadLoc FunctionTest.test {| tokens := [] |} FunctionTest.state
     = (Throw TypeError, FunctionTest.state)
  /\ getFunctionHeadLoc AsyncArrow.arrow {| tokens := [] |} AsyncArrow.state
     = (Throw TypeError, AsyncArrow.state).
Proof.
  split; [|split].
  - apply (proj1 (getFunctionHeadLoc_throws FunctionTest.program
                    FunctionTest.source FunctionTest.state)).
    reflexivity.
  - apply (proj1 (proj2 (getFunctionHeadLoc_throws FunctionTest.test
                           {| tokens := [] |} FunctionTest.state))
             FunctionTest.program eq_refl).
    + right. discriminate.
    + reflexivity.
  - apply (proj2 (proj2 (getFunctionHeadLoc_throws AsyncArrow.arrow
                           {| tokens := [] |} AsyncArrow.state))
             AsyncArrow.declarator AsyncArrow.block eq_refl).
    + intros [H|[H|H]]; discriminate H.
    + reflexivity.
    + reflexivity.
    + reflexivity.
Defined.

(** X12.  The span [getFunctionHeadLoc] returns is made of two objects of its
    own: they differ from each other, and a caller that overwrites either of
    them changes no object that existed before the call (the positions of
    the tree among them) nor the other end of the span. *)
Theorem getFunctionHeadLoc_owned (node : ASTNode) (sc : SourceCode)
    (s s' : State) (span : SourceLocation) :
  getFunctionHeadLoc node sc s = (Normal span, s') ->
  start span <> end_ span
  /\ (forall (r : ref) (o : HeapObject),
        r < List.length (heap s) ->
        (<[start span := o]> (heap s')) !! r = heap s !! r
        /\ (<[end_ span := o]> (heap s')) !! r = heap s !! r)
  /\ (forall o : HeapObject,
        (<[start span := o]> (heap s')) !! end_ span = heap s' !! end_ span
        /\ (<[end_ span := o]> (heap s')) !! start span
           = heap s' !! start span).
Proof.
  intros Hrun.
  apply getFunctionHeadLoc_normal in Hrun
    as (a & b & la & ca & lb & cb & _ & _ & _ & -> & ->).
  cbn [start end_ heap]. split; [lia|]. split.
  - intros r o Hr.
    rewrite !list_lookup_insert_ne by lia.
    by rewrite lookup_app_l.
  - intros o. by rewrite !list_lookup_insert_ne by lia.
Qed.

Lemma getFunctionHeadLoc_owned_witness :
  36 <> 37
  /\ (<[36 := ArrayObject []]>
        (heap (snd (getFunctionHeadLoc FunctionTest.test FunctionTest.source
                      FunctionTest.state)))) !! 0
     = heap FunctionTest.state !! 0.
Proof.
  pose proof (getFunctionHeadLoc_owned FunctionTest.test FunctionTest.source
                FunctionTest.state
                (snd (getFunctionHeadLoc FunctionTest.test FunctionTest.source
                        FunctionTest.state))
                {| start := 36; end_ := 37 |}
                ltac:(vm_compute; reflexivity)) as (Hne & Hold & _).
  split; [exact Hne|].
  apply (Hold 0 (ArrayObject [])). vm_compute. lia.
Defined.

(** X13.  [getOpeningParenOfParams] never touches the state, and it throws
    in one situation only: the node is an arrow function with exactly one
    parameter, and either the parameter has no token or no token stands
    before its first token.  For every other node a missing parenthesis is
    returned as [null], not thrown. *)
Theorem getOpeningParenOfParams_throws (node : ASTNode) (sc : SourceCode)
    (s : State) :
  snd (getOpeningParenOfParams node sc s) = s
  /\ (fst (getOpeningParenOfParams node sc s) = Throw TypeError
      <-> Node.type node = "ArrowFunctionExpression"
          /\ exists param,
               Node.params node = [param]
               /\ (getFirstToken sc (Node.range param) None = None
                   \/ exists argToken,
                        getFirstToken sc (Node.range param) None = Some argToken
                        /\ getTokenBefore sc (Token.range argToken) None = None)).
Proof.
  split.
  - by rewrite (getOpeningParenOfParams_stateless node sc s).
  - unfold getOpeningParenOfParams.
    destruct (Node.type node === "ArrowFunctionExpression") eqn:Htype.
    + apply String.eqb_eq in Htype.
      destruct (Node.params node) as [|param [|param2 params]] eqn:Hparams;
        cbn [List.length Nat.eqb andb].
      * destruct (Node.id_ node); cbn; (split; [discriminate|]);
          intros (_ & param & H & _); discriminate H.
      * unfold bind, deref, ret, throw. cbn [lookup list_lookup].
        destruct (getFirstToken sc (Node.range param) None) as [argToken|]
          eqn:Harg.
        -- destruct (getTokenBefore sc (Token.range argToken) None)
             as [before|] eqn:Hbefore; cbn [fst].
           ++ split; [discriminate|].
              intros (_ & p & [= <-] & [H|(t & Ht & H)]).
              ** rewrite Harg in H. discriminate H.
              ** rewrite Harg in Ht. injection Ht as <-.
                 rewrite Hbefore in H. discriminate H.
           ++ split; [|reflexivity]. intros _. split; [exact Htype|].
              exists param. split; [reflexivity|]. right. by exists argToken.
        -- cbn [fst]. split; [|reflexivity]. intros _. split; [exact Htype|].
           exists param. split; [reflexivity|]. by left.
      * destruct (Node.id_ node); cbn; (split; [discriminate|]);
          intros (_ & param' & H & _); discriminate H.
    + apply String.eqb_neq in Htype. cbn [andb].
      destruct (Node.id_ node); cbn; (split; [discriminate|]);
        intros (H & _); contradiction.
Qed.

Lemma getOpeningParenOfParams_throws_witness :
  fst (getOpeningParenOfParams BareArrow.arrow BareArrow.source BareArrow.state)
  = Throw TypeError.
Proof.
  apply (proj2 (proj2 (getOpeningParenOfParams_throws BareArrow.arrow
                         BareArrow.source BareArrow.state))).
  split; [reflexivity|]. exists BareArrow.param_x. split; [reflexivity|].
  right. exists (tokenAt BareArrow.text 0 "Identifier" (0, 1)).
  split; reflexivity.
Defined.

(** X14.  With a limit of at least 1 for the category of the node, and a head
    location that can be computed, [checkFunction] adds a report exactly when
    the node has more parameters than the limit: a node with exactly as many
    parameters as the limit allows is not reported. *)
Theorem checkFunction_exceeds_iff (context : RuleContext) (node : ASTNode)
    (s : State) (name : string) (limit : nat) (loc : SourceLocation)
    (s2 : State) :
  fst (getFunctionNameWithKind node s) = Normal name ->
  (if name === "constructor" then constructorNumParams context
   else funcNumParams context) = Some limit ->
  getFunctionHeadLoc node (sourceCode context)
    (snd (getFunctionNameWithKind node s)) = (Normal loc, s2) ->
  1 <= limit
  /\ (reports (snd (checkFunction context node s)) <> reports s
      <-> limit < List.length (Node.params node))
  /\ (List.length (Node.params node) = limit ->
      reports (snd (checkFunction context node s)) = reports s).
Proof.
  intros Hname Hlimit Hloc.
  destruct (checkFunction_reports_iff context node s name limit loc s2
              Hname Hlimit Hloc) as [Hgt Hle].
  split; [|split].
  - unfold constructorNumParams, funcNumParams in Hlimit.
    destruct (options context !! 0) as [option|];
      [|destruct (name === "constructor"); discriminate].
    destruct (name === "constructor").
    + destruct (constructor option) as [[|k]|]; cbn in Hlimit;
        try discriminate. injection Hlimit as <-. lia.
    + destruct (func option) as [[|k]|]; cbn in Hlimit;
        try discriminate. injection Hlimit as <-. lia.
  - split.
    + intros Hchanged.
      destruct (Nat.lt_ge_cases limit (List.length (Node.params node)))
        as [Hlt|Hge]; [exact Hlt|].
      contradiction (Hchanged (Hle Hge)).
    + intros Hlt Hsame. destruct (Hgt Hlt) as (descriptor & Hreports & _).
      rewrite Hreports in Hsame.
      apply (f_equal (@List.length _)) in Hsame.
      rewrite length_app in Hsame. cbn in Hsame. lia.
  - intros Heq. apply Hle. lia.
Qed.

Lemma checkFunction_exceeds_iff_witness :
  1 <= 3
  /\ (reports (snd (checkFunction (contextOf ClassTest.source (Some 2) (Some 3))
                      ClassTest.constructorFunction ClassTest.state))
      <> reports ClassTest.state
      <-> 3 < List.length (Node.params ClassTest.constructorFunction))
  /\ (List.length (Node.params ClassTest.constructorFunction) = 3 ->
      reports (snd (checkFunction (contextOf ClassTest.source (Some 2) (Some 3))
                      ClassTest.constructorFunction ClassTest.state))
      = reports ClassTest.state).
Proof.
  apply (checkFunction_exceeds_iff (contextOf ClassTest.source (Some 2) (Some 3))
           ClassTest.constructorFunction ClassTest.state "constructor" 3
           {| start := 97; end_ := 98 |}
           (snd (getFunctionHeadLoc ClassTest.constructorFunction
                   ClassTest.source
                   (snd (getFunctionNameWithKind ClassTest.constructorFunction
                           ClassTest.state))))).
  - vm_compute. reflexivity.
  - vm_compute. reflexivity.
  - vm_compute. reflexivity.
Defined.
